(** * Order placement and payment reconciliation of the craft marketplace backend

    A shallow embedding of the Express route handlers of [routes/orders.js]
    and [routes/payments.js] over an explicit model of the three Mongoose
    collections they touch (products, orders, payments).  Every handler is a
    function from the database and the request to a response and the
    database afterwards; a rejected [save()] is the exception that the
    handler's [try]/[catch] turns into a 500 response. *)

From Stdlib Require Import ZArith Ascii String List Lia.
From stdpp Require Import gmap strings list fin_maps.

Local Open Scope string_scope.
Local Open Scope Z_scope.

(** ** MD5, as provided by Node's [crypto.createHash('md5')]

    The handlers only call the library; the digest is written out here
    (RFC 1321) so that signatures can be computed on concrete requests.
    Words are 32-bit values carried in [Z] with the wrap-around explicit. *)

Module MD5.

Definition mask32 (x : Z) : Z := x mod 2 ^ 32.

Definition not32 (x : Z) : Z := Z.lxor x 0xffffffff.

Definition rotl32 (x c : Z) : Z :=
  mask32 (Z.lor (Z.shiftl x c) (Z.shiftr x (32 - c))).

Definition K : list Z :=
  [ 0xd76aa478; 0xe8c7b756; 0x242070db; 0xc1bdceee;
    0xf57c0faf; 0x4787c62a; 0xa8304613; 0xfd469501;
    0x698098d8; 0x8b44f7af; 0xffff5bb1; 0x895cd7be;
    0x6b901122; 0xfd987193; 0xa679438e; 0x49b40821;
    0xf61e2562; 0xc040b340; 0x265e5a51; 0xe9b6c7aa;
    0xd62f105d; 0x02441453; 0xd8a1e681; 0xe7d3fbc8;
    0x21e1cde6; 0xc33707d6; 0xf4d50d87; 0x455a14ed;
    0xa9e3e905; 0xfcefa3f8; 0x676f02d9; 0x8d2a4c8a;
    0xfffa3942; 0x8771f681; 0x6d9d6122; 0xfde5380c;
    0xa4beea44; 0x4bdecfa9; 0xf6bb4b60; 0xbebfbc70;
    0x289b7ec6; 0xeaa127fa; 0xd4ef3085; 0x04881d05;
    0xd9d4d039; 0xe6db99e5; 0x1fa27cf8; 0xc4ac5665;
    0xf4292244; 0x432aff97; 0xab9423a7; 0xfc93a039;
    0x655b59c3; 0x8f0ccc92; 0xffeff47d; 0x85845dd1;
    0x6fa87e4f; 0xfe2ce6e0; 0xa3014314; 0x4e0811a1;
    0xf7537e82; 0xbd3af235; 0x2ad7d2bb; 0xeb86d391 ].

Definition shifts : list Z :=
  [ 7; 12; 17; 22; 7; 12; 17; 22; 7; 12; 17; 22; 7; 12; 17; 22;
    5; 9; 14; 20; 5; 9; 14; 20; 5; 9; 14; 20; 5; 9; 14; 20;
    4; 11; 16; 23; 4; 11; 16; 23; 4; 11; 16; 23; 4; 11; 16; 23;
    6; 10; 15; 21; 6; 10; 15; 21; 6; 10; 15; 21; 6; 10; 15; 21 ].

(** [n] bytes of [x], least significant first. *)
Fixpoint le_bytes (n : nat) (x : Z) : list Z :=
  match n with
  | O => []
  | S n' => x mod 256 :: le_bytes n' (x / 256)
  end.

Definition le_word (bs : list Z) : Z :=
  fold_right (fun b acc => b + 256 * acc) 0 bs.

(** The message followed by the bit 1, zeros up to 56 modulo 64, and the
    length in bits as a 64-bit little-endian integer. *)
Definition pad (msg : list Z) : list Z :=
  let len := Z.of_nat (length msg) in
  msg ++ 0x80 :: repeat 0 (Z.to_nat ((55 - len) mod 64))
      ++ le_bytes 8 ((8 * len) mod 2 ^ 64).

Fixpoint chunks {A} (fuel size : nat) (l : list A) : list (list A) :=
  match fuel with
  | O => []
  | S fuel' =>
      match l with
      | [] => []
      | _ => firstn size l :: chunks fuel' size (skipn size l)
      end
  end.

Definition words (block : list Z) : list Z :=
  map le_word (chunks 16 4 block).

Definition regs : Type := Z * Z * Z * Z.

Definition step (M : list Z) (r : regs) (i : nat) : regs :=
  let '(A, B, C, D) := r in
  let iz := Z.of_nat i in
  let '(F, g) :=
    if iz <? 16 then (Z.lor (Z.land B C) (Z.land (not32 B) D), iz)
    else if iz <? 32 then
      (Z.lor (Z.land D B) (Z.land (not32 D) C), (5 * iz + 1) mod 16)
    else if iz <? 48 then (Z.lxor (Z.lxor B C) D, (3 * iz + 5) mod 16)
    else (Z.lxor C (Z.lor B (not32 D)), (7 * iz) mod 16) in
  let F' := mask32 (F + A + nth i K 0 + nth (Z.to_nat g) M 0) in
  (D, mask32 (B + rotl32 F' (nth i shifts 0)), B, C).

Definition compress (r : regs) (block : list Z) : regs :=
  let '(a0, b0, c0, d0) := r in
  let '(A, B, C, D) := fold_left (step (words block)) (seq 0 64) r in
  (mask32 (a0 + A), mask32 (b0 + B), mask32 (c0 + C), mask32 (d0 + D)).

Definition init : regs := (0x67452301, 0xefcdab89, 0x98badcfe, 0x10325476).

Definition digest (msg : list Z) : list Z :=
  let p := pad msg in
  let '(a, b, c, d) := fold_left compress (chunks (length p) 64 p) init in
  le_bytes 4 a ++ le_bytes 4 b ++ le_bytes 4 c ++ le_bytes 4 d.

Definition hex_digit (n : Z) : ascii :=
  ascii_of_N (Z.to_N (if n <? 10 then 48 + n else 87 + n)).

Fixpoint hex_of_bytes (bs : list Z) : string :=
  match bs with
  | [] => EmptyString
  | b :: bs' =>
      String (hex_digit (b / 16)) (String (hex_digit (b mod 16)) (hex_of_bytes bs'))
  end.

Definition bytes_of_string (s : string) : list Z :=
  map (fun c => Z.of_N (N_of_ascii c)) (list_ascii_of_string s).

(** [crypto.createHash('md5').update(s).digest('hex')]: 32 lowercase
    hexadecimal digits. *)
Definition md5_hex (s : string) : string :=
  hex_of_bytes (digest (bytes_of_string s)).

End MD5.

(** [String.prototype.toUpperCase], on the ASCII range (it is only applied
    to hexadecimal digests). *)
Definition upper_ascii (c : ascii) : ascii :=
  let n := N_of_ascii c in
  if ((97 <=? n) && (n <=? 122))%N then ascii_of_N (n - 32) else c.

Fixpoint toUpperCase (s : string) : string :=
  match s with
  | EmptyString => EmptyString
  | String c s' => String (upper_ascii c) (toUpperCase s')
  end.

(** ** Documents and schemas ([models/Product.js], [models/Order.js],
    [models/Payment.js])

    A document is what [new Model(data)] holds before validation: a path the
    caller left [undefined] is [None].  [validate] is the schema check that
    [save()] runs; numbers are carried in [Z].  Only the paths of the schema
    are stored: what the handlers assign to [customerInfo], [paymentStatus]
    or [paymentId] of an order does not reach the collection, and is left
    out here. *)

Abbreviation ObjectId := N (only parsing).

Module Product.
Record doc := mk
  { title : string;
    price : Z;
    stock : Z;
    isActive : bool }.

Definition inc_stock (d : Z) (p : doc) : doc :=
  {| title := title p; price := price p; stock := stock p + d;
     isActive := isActive p |}.
End Product.

Record LineItem := mkItem
  { product : ObjectId;
    quantity : Z }.

Record TrackingInfo := mkTracking
  { provider : string;
    trackingNumber : string;
    tracking_status : string }.

Definition includes (l : list string) (s : string) : bool :=
  existsb (String.eqb s) l.

Module Order.
Record doc := mk
  { user : option ObjectId;
    products : list LineItem;
    totalAmount : option Z;
    status : string;
    shippingAddress : string;
    trackingInfo : option TrackingInfo }.

Definition status_enum : list string :=
  ["pending"; "confirmed"; "shipped"; "delivered"; "cancelled"; "returned"].

(** [totalAmount] and [shippingAddress] are required, [status] is
    restricted to the enum.  A required string path rejects the empty
    string. *)
Definition validate (o : doc) : bool :=
  match totalAmount o with Some _ => true | None => false end
  && includes status_enum (status o)
  && negb (String.eqb (shippingAddress o) "").

Definition set_status (s : string) (o : doc) : doc :=
  {| user := user o; products := products o; totalAmount := totalAmount o;
     status := s; shippingAddress := shippingAddress o;
     trackingInfo := trackingInfo o |}.

Definition set_trackingInfo (t : TrackingInfo) (o : doc) : doc :=
  {| user := user o; products := products o; totalAmount := totalAmount o;
     status := status o; shippingAddress := shippingAddress o;
     trackingInfo := Some t |}.
End Order.

Module Payment.
Record doc := mk
  { order : ObjectId;
    amount : option Z;
    method : string;
    status : string;
    transactionId : option string }.

Definition method_enum : list string :=
  ["card"; "cash_on_delivery"; "bank_transfer"].

Definition status_enum : list string :=
  ["pending"; "paid"; "failed"; "refunded"].

(** [order], [amount] and [method] are required; [method] and [status]
    are restricted to their enums. *)
Definition validate (p : doc) : bool :=
  match amount p with Some _ => true | None => false end
  && includes method_enum (method p)
  && includes status_enum (status p).
End Payment.

(** The three collections. *)
Record DB := mkDB
  { Products : gmap N Product.doc;
    Orders : gmap N Order.doc;
    Payments : gmap N Payment.doc }.

(** ** Responses *)

Inductive body :=
| error (msg : string)
| product_not_found (id : ObjectId)
| product_not_available (title : string)
| insufficient_stock (title : string)
| message (msg : string)
| order_created (order paymentId : ObjectId)
| order_updated (order : ObjectId)
| success (b : bool).

(** [res.status(code).json(body)]; a plain [res.json] is status 200. *)
Record response := Json { code : Z; json : body }.

(** ** Handler monad

    A handler step runs on the database and either goes on with a value,
    has sent the response ([return res...]), or has thrown. *)

Inductive outcome (A : Type) :=
| Value (a : A)
| Sent (r : response)
| Thrown.
Arguments Value {A} a.
Arguments Sent {A} r.
Arguments Thrown {A}.

Definition handler (A : Type) : Type := DB -> outcome A * DB.

#[export] Instance handler_ret : MRet handler :=
  fun A (a : A) db => (Value a, db).

#[export] Instance handler_bind : MBind handler :=
  fun A B (k : A -> handler B) (m : handler A) db =>
    match m db with
    | (Value a, db') => k a db'
    | (Sent r, db') => (Sent r, db')
    | (Thrown, db') => (Thrown, db')
    end.

Definition send {A} (r : response) : handler A := fun db => (Sent r, db).

Definition throw {A} : handler A := fun db => (Thrown, db).

(** [for (const item of items) { body }] *)
Fixpoint for_of {A} (items : list A) (f : A -> handler unit) : handler unit :=
  match items with
  | [] => mret tt
  | item :: rest => f item ;; for_of rest f
  end.

(** [try { m } catch (error) { res.status(500).json(r) }]: the effects up
    to the throw stay. *)
Definition try_catch (m : handler Empty_set) (r : body) (db : DB)
  : response * DB :=
  match m db with
  | (Value a, _) => match a with end
  | (Sent res, db') => (res, db')
  | (Thrown, db') => (Json 500 r, db')
  end.

(** ** Mongoose calls *)

Definition fresh_id {V} (m : gmap N V) : ObjectId := fresh (dom m).

Definition Product_findById (id : ObjectId) : handler (option Product.doc) :=
  fun db => (Value (Products db !! id), db).

(** [Product.findByIdAndUpdate(id, { $inc: { stock: d } })]: nothing
    happens when no product has this id. *)
Definition Product_inc_stock (id : ObjectId) (d : Z) : handler unit :=
  fun db =>
    (Value tt,
     {| Products := alter (Product.inc_stock d) id (Products db);
        Orders := Orders db; Payments := Payments db |}).

Definition Order_findById (id : ObjectId) : handler (option Order.doc) :=
  fun db => (Value (Orders db !! id), db).

(** [order.save()] of a document with identifier [id]. *)
Definition Order_save (id : ObjectId) (o : Order.doc) : handler unit :=
  fun db =>
    if Order.validate o then
      (Value tt,
       {| Products := Products db; Orders := <[id := o]> (Orders db);
          Payments := Payments db |})
    else (Thrown, db).

(** [new Order(data)] followed by [save()]: the document gets an identifier
    no order has yet. *)
Definition Order_create (o : Order.doc) : handler ObjectId :=
  fun db =>
    let id := fresh_id (Orders db) in
    (Order_save id o ;; mret id) db.

Definition Payment_create (p : Payment.doc) : handler ObjectId :=
  fun db =>
    if Payment.validate p then
      let id := fresh_id (Payments db) in
      (Value id,
       {| Products := Products db; Orders := Orders db;
          Payments := <[id := p]> (Payments db) |})
    else (Thrown, db).

(** ** Requests *)

(** [req.user], set by the authentication middleware. *)
Record User := mkUser
  { _id : ObjectId;
    role : string }.

(** A JavaScript value used as a condition: [undefined] and the empty
    string are falsy. *)
Definition truthy (v : option string) : bool :=
  match v with
  | Some s => negb (String.eqb s "")
  | None => false
  end.

Module CreateOrderBody.
Record t := mk
  { products : option (list LineItem);
    shippingAddress : option string;
    customerName : option string;
    customerEmail : option string;
    customerPhone : option string;
    totalAmount : option Z }.
End CreateOrderBody.

Module StatusBody.
Record t := mk
  { status : option string;
    trackingInfo : option TrackingInfo }.
End StatusBody.

Module WebhookBody.
Record t := mk
  { merchant_id : string;
    order_id : string;
    payment_id : string;
    payhere_amount : string;
    payhere_currency : string;
    status_code : string;
    md5sig : string;
    custom_1 : ObjectId;
    custom_2 : option ObjectId }.
End WebhookBody.

Module ConfirmBody.
Record t := mk
  { orderId : ObjectId;
    paymentId : string;
    status : string }.
End ConfirmBody.

(** [process.env] *)
Record Env := mkEnv
  { PAYHERE_SECRET_KEY : option string }.

(** ** [routes/orders.js] *)

(** Body of the loop "Validate products and check stock". *)
Definition check_stock (item : LineItem) : handler unit :=
  found ← Product_findById (product item);
  match found with
  | None => send (Json 400 (product_not_found (product item)))
  | Some p =>
    if negb (Product.isActive p) then
      send (Json 400 (product_not_available (Product.title p)))
    else if Product.stock p <? quantity item then
      send (Json 400 (insufficient_stock (Product.title p)))
    else mret tt
  end.

(** Body of the loop "Update product stock". *)
Definition decrement_stock (item : LineItem) : handler unit :=
  Product_inc_stock (product item) (- quantity item).

(** Body of the loop "Restore product stock" of the cancellation. *)
Definition restore_stock (item : LineItem) : handler unit :=
  Product_inc_stock (product item) (quantity item).

(** [POST /]: create an order, for [req.user] or for a guest. *)
Definition createOrder (user : option User) (b : CreateOrderBody.t)
  : DB -> response * DB :=
  try_catch
    (match CreateOrderBody.products b with
     | None | Some [] => send (Json 400 (error "Products are required"))
     | Some products =>
       if negb (truthy (CreateOrderBody.shippingAddress b)) then
         send (Json 400 (error "Shipping address is required"))
       else
         (* Validate products and check stock *)
         for_of products check_stock ;;
         (* Create order *)
         owner ← match user with
                 | Some u => mret (Some (_id u))
                 | None =>
                   if negb (truthy (CreateOrderBody.customerName b))
                      || negb (truthy (CreateOrderBody.customerEmail b))
                      || negb (truthy (CreateOrderBody.customerPhone b))
                   then send (Json 400
                     (error "Customer information is required for guest orders"))
                   else mret None
                 end;
         order ← Order_create
           {| Order.user := owner;
              Order.products := products;
              Order.totalAmount := CreateOrderBody.totalAmount b;
              Order.status := "pending";
              Order.shippingAddress :=
                default "" (CreateOrderBody.shippingAddress b);
              Order.trackingInfo := None |};
         (* Update product stock *)
         for_of products decrement_stock ;;
         (* Create payment record *)
         payment ← Payment_create
           {| Payment.order := order;
              Payment.amount := CreateOrderBody.totalAmount b;
              Payment.method := "pending";
              Payment.status := "pending";
              Payment.transactionId := None |};
         (* the order is read back for the response *)
         send (Json 201 (order_created order payment))
     end)
    (error "Failed to create order").

Definition validStatuses : list string :=
  ["pending"; "confirmed"; "shipped"; "delivered"; "cancelled"; "returned"].

(** [PATCH /:id/status], behind [authorizeRoles('admin')]. *)
Definition updateStatus (id : ObjectId) (b : StatusBody.t)
  : DB -> response * DB :=
  try_catch
    (match StatusBody.status b with
     | None => send (Json 400 (error "Invalid status"))
     | Some status =>
       if negb (includes validStatuses status) then
         send (Json 400 (error "Invalid status"))
       else
         found ← Order_findById id;
         match found with
         | None => send (Json 404 (error "Order not found"))
         | Some order =>
           let order := Order.set_status status order in
           (* Add tracking info if shipping *)
           let order :=
             match StatusBody.trackingInfo b with
             | Some t =>
               if String.eqb status "shipped"
               then Order.set_trackingInfo t order else order
             | None => order
             end in
           Order_save id order ;;
           send (Json 200 (order_updated id))
         end
     end)
    (error "Failed to update order status").

(** [PATCH /:id/cancel], behind [authenticateToken]. *)
Definition cancelOrder (user : User) (id : ObjectId) : DB -> response * DB :=
  try_catch
    (found ← Order_findById id;
     match found with
     | None => send (Json 404 (error "Order not found"))
     | Some order =>
       (* Check if user is authorized to cancel this order *)
       if negb (String.eqb (role user) "admin")
          && match Order.user order with
             | Some owner => negb (N.eqb owner (_id user))
             | None => false
             end
       then send (Json 403 (error "Not authorized to cancel this order"))
       else if String.eqb (Order.status order) "cancelled" then
         send (Json 400 (error "Order is already cancelled"))
       else if String.eqb (Order.status order) "delivered" then
         send (Json 400 (error "Cannot cancel delivered order"))
       else
         let order := Order.set_status "cancelled" order in
         Order_save id order ;;
         (* Restore product stock if order was confirmed or shipped *)
         (if includes ["confirmed"; "shipped"] (Order.status order) then
            for_of (Order.products order) restore_stock
          else mret tt) ;;
         send (Json 200 (message "Order cancelled successfully"))
     end)
    (error "Failed to cancel order").

(** ** [routes/payments.js] *)

(** The signature the gateway is expected to send:
    [MD5(merchant_id + order_id + amount + currency + status_code +
    MD5(merchant_secret).toUpperCase()).toUpperCase()]. *)
Definition expectedMd5sig (env : Env) (b : WebhookBody.t) : string :=
  let merchantSecret := default "" (PAYHERE_SECRET_KEY env) in
  let secretMd5Upper := toUpperCase (MD5.md5_hex merchantSecret) in
  toUpperCase (MD5.md5_hex
    (WebhookBody.merchant_id b ++ WebhookBody.order_id b
     ++ WebhookBody.payhere_amount b ++ WebhookBody.payhere_currency b
     ++ WebhookBody.status_code b ++ secretMd5Upper)%string).

Section Payments.

(** JavaScript's [Number(string)]; [None] is [NaN], which the schema's
    number path does not accept. *)
Variable Number : string -> option Z.

Variable env : Env.

(** [POST /payhere-webhook] *)
Definition payhere_webhook (b : WebhookBody.t) : DB -> response * DB :=
  try_catch
    ((* Verify MD5 signature (PayHere security) *)
     if negb (String.eqb (WebhookBody.md5sig b) (expectedMd5sig env b)) then
       send (Json 400 (error "Invalid signature"))
     else
       (* Find the order *)
       found ← Order_findById (WebhookBody.custom_1 b);
       match found with
       | None => send (Json 404 (error "Order not found"))
       | Some order =>
         let id := WebhookBody.custom_1 b in
         (* Create payment record (match Payment schema) *)
         Payment_create
           {| Payment.order := id;
              Payment.amount := Number (WebhookBody.payhere_amount b);
              Payment.method := "card";
              Payment.status :=
                if String.eqb (WebhookBody.status_code b) "2"
                then "paid" else "failed";
              Payment.transactionId := Some (WebhookBody.payment_id b) |} ;;
         (* Update order status *)
         (if String.eqb (WebhookBody.status_code b) "2" then
            Order_save id (Order.set_status "confirmed" order)
          else
            Order_save id (Order.set_status "payment_failed" order)) ;;
         send (Json 200 (success true))
       end)
    (error "Webhook processing failed").

(** [POST /confirm] *)
Definition confirm (b : ConfirmBody.t) : DB -> response * DB :=
  try_catch
    (found ← Order_findById (ConfirmBody.orderId b);
     match found with
     | None => send (Json 404 (error "Order not found"))
     | Some order =>
       if String.eqb (ConfirmBody.status b) "completed" then
         Order_save (ConfirmBody.orderId b)
           (Order.set_status "confirmed" order) ;;
         send (Json 200 (success true))
       else send (Json 200 (success false))
     end)
    (error "Payment confirmation failed").

(** ** The system as a transition system *)

Inductive operation :=
| CreateOrder (user : option User) (b : CreateOrderBody.t)
| UpdateStatus (id : ObjectId) (b : StatusBody.t)
| CancelOrder (user : User) (id : ObjectId)
| PayhereWebhook (b : WebhookBody.t)
| Confirm (b : ConfirmBody.t).

Definition run (op : operation) : DB -> response * DB :=
  match op with
  | CreateOrder user b => createOrder user b
  | UpdateStatus id b => updateStatus id b
  | CancelOrder user id => cancelOrder user id
  | PayhereWebhook b => payhere_webhook b
  | Confirm b => confirm b
  end.

(** A catalogue with no order placed yet, every stock non-negative. *)
Definition initial (db : DB) : Prop :=
  Orders db = ∅ /\ Payments db = ∅ /\
  forall id p, Products db !! id = Some p -> 0 <= Product.stock p.

Inductive reachable : DB -> Prop :=
| reachable_init db : initial db -> reachable db
| reachable_step db op : reachable db -> reachable (snd (run op db)).

End Payments.

(** The earlier revision of the webhook ([routes/payments.js]) signs with
    the secret itself, not with its digest. *)
Definition legacy_expectedMd5sig (PAYHERE_SECRET : option string)
    (b : WebhookBody.t) : string :=
  let secret :=
    match PAYHERE_SECRET with
    | Some s => if String.eqb s "" then "CHANGE123" else s
    | None => "CHANGE123"
    end in
  toUpperCase (MD5.md5_hex
    (WebhookBody.merchant_id b ++ WebhookBody.order_id b
     ++ WebhookBody.payhere_amount b ++ WebhookBody.payhere_currency b
     ++ WebhookBody.status_code b ++ secret)%string).

(** ** Vocabulary of the properties *)

Definition stock_of (db : DB) (id : ObjectId) : option Z :=
  Product.stock <$> Products db !! id.

(** Total quantity the line items request of product [id]. *)
Definition requested (id : ObjectId) (items : list LineItem) : Z :=
  foldr (fun item acc =>
           if N.eqb (product item) id then quantity item + acc else acc)
        0 items.

(** Products' prices times the requested quantities, [None] when a line
    names no product. *)
Fixpoint items_total (ps : gmap N Product.doc) (items : list LineItem)
  : option Z :=
  match items with
  | [] => Some 0
  | item :: rest =>
      match ps !! product item, items_total ps rest with
      | Some p, Some t => Some (Product.price p * quantity item + t)
      | _, _ => None
      end
  end.

(** A line item that the validation loop refuses. *)
Definition bad_item (db : DB) (item : LineItem) : Prop :=
  match Products db !! product item with
  | None => True
  | Some p => Product.isActive p = false \/ Product.stock p < quantity item
  end.

(** The order [pending -> confirmed -> shipped -> delivered]. *)
Definition rank (s : string) : option nat :=
  if String.eqb s "pending" then Some 0%nat
  else if String.eqb s "confirmed" then Some 1%nat
  else if String.eqb s "shipped" then Some 2%nat
  else if String.eqb s "delivered" then Some 3%nat
  else None.

Definition terminal (s : string) : bool :=
  String.eqb s "delivered" || String.eqb s "cancelled".

(** A change of status that the order-status invariant allows: no change,
    a forward move along the order, or a cancellation of a non-terminal
    order. *)
Definition allowed_transition (old new : string) : Prop :=
  old = new
  \/ (exists i j, rank old = Some i /\ rank new = Some j /\ (i < j)%nat
      /\ terminal old = false)
  \/ (new = "cancelled" /\ terminal old = false).

(** What the loop "Update product stock" does to the products. *)
Definition dec_all (items : list LineItem) (ps : gmap N Product.doc)
  : gmap N Product.doc :=
  foldl (fun ps item =>
           alter (Product.inc_stock (- quantity item)) (product item) ps)
        ps items.

(** The order document that [createOrder] builds. *)
Definition new_order (user : option User) (b : CreateOrderBody.t)
    (items : list LineItem) : Order.doc :=
  {| Order.user := _id <$> user;
     Order.products := items;
     Order.totalAmount := CreateOrderBody.totalAmount b;
     Order.status := "pending";
     Order.shippingAddress := default "" (CreateOrderBody.shippingAddress b);
     Order.trackingInfo := None |}.

(** The caller passes the authorization check of the cancellation: an
    admin, the owner, or anyone when the order has no owner. *)
Definition may_cancel (user : User) (o : Order.doc) : bool :=
  String.eqb (role user) "admin"
  || match Order.user o with
     | Some owner => N.eqb owner (_id user)
     | None => true
     end.

Definition with_order (id : ObjectId) (o : Order.doc) (db : DB) : DB :=
  {| Products := Products db; Orders := <[id := o]> (Orders db);
     Payments := Payments db |}.

Definition with_payment (id : ObjectId) (p : Payment.doc) (db : DB) : DB :=
  {| Products := Products db; Orders := Orders db;
     Payments := <[id := p]> (Payments db) |}.

(** The document that [updateStatus] saves. *)
Definition updated_order (status : string) (t : option TrackingInfo)
    (o : Order.doc) : Order.doc :=
  match t with
  | Some t =>
    if String.eqb status "shipped"
    then Order.set_trackingInfo t (Order.set_status status o)
    else Order.set_status status o
  | None => Order.set_status status o
  end.

(** The payment document that the webhook builds. *)
Definition webhook_payment (Number : string -> option Z) (b : WebhookBody.t)
  : Payment.doc :=
  {| Payment.order := WebhookBody.custom_1 b;
     Payment.amount := Number (WebhookBody.payhere_amount b);
     Payment.method := "card";
     Payment.status :=
       if String.eqb (WebhookBody.status_code b) "2" then "paid" else "failed";
     Payment.transactionId := Some (WebhookBody.payment_id b) |}.

(** Operations that look at an order's current status before they change
    it ([cancelOrder]) or that only add orders ([createOrder]). *)
Definition keeps_status_order (op : operation) : bool :=
  match op with
  | CreateOrder _ _ | CancelOrder _ _ => true
  | UpdateStatus _ _ | PayhereWebhook _ | Confirm _ => false
  end.

(** The order-status enumeration as the specification lists it. *)
Definition spec_status_enum : list string :=
  ["pending"; "confirmed"; "shipped"; "delivered"; "cancelled"; "returned";
   "payment_failed"].

(** ** Sample data *)

(** [Number] on the strings of decimal digits. *)
Definition Number_digits (s : string) : option Z :=
  fold_left
    (fun acc c =>
       match acc with
       | None => None
       | Some a =>
         let n := Z.of_N (N_of_ascii c) in
         if (48 <=? n) && (n <=? 57) then Some (10 * a + (n - 48)) else None
       end)
    (list_ascii_of_string s) (Some 0).

Definition vase (stock : Z) : Product.doc :=
  {| Product.title := "Clay vase"; Product.price := 100;
     Product.stock := stock; Product.isActive := true |}.

(** A catalogue of one product, identifier 1, and no order. *)
Definition shop (stock : Z) : DB :=
  {| Products := {[ 1%N := vase stock ]}; Orders := ∅; Payments := ∅ |}.

Definition guest_order (items : list LineItem) (total : Z)
  : CreateOrderBody.t :=
  {| CreateOrderBody.products := Some items;
     CreateOrderBody.shippingAddress := Some "12 Galle Road, Colombo";
     CreateOrderBody.customerName := Some "Nimal";
     CreateOrderBody.customerEmail := Some "nimal@example.com";
     CreateOrderBody.customerPhone := Some "0771234567";
     CreateOrderBody.totalAmount := Some total |}.

Definition admin : User := {| _id := 100; role := "admin" |}.
Definition customer : User := {| _id := 7; role := "user" |}.
Definition stranger : User := {| _id := 8; role := "user" |}.

(** An order of [customer] for [q] vases. *)
Definition order_of (status : string) (q : Z) : Order.doc :=
  {| Order.user := Some 7%N;
     Order.products := [ {| product := 1; quantity := q |} ];
     Order.totalAmount := Some (100 * q);
     Order.status := status;
     Order.shippingAddress := "12 Galle Road, Colombo";
     Order.trackingInfo := None |}.

(** The catalogue with that order stored under identifier 0. *)
Definition shop_with_order (stock : Z) (status : string) (q : Z) : DB :=
  {| Products := {[ 1%N := vase stock ]};
     Orders := {[ 0%N := order_of status q ]};
     Payments := ∅ |}.

Definition demo_env : Env := {| PAYHERE_SECRET_KEY := Some "s3cret" |}.

(** A gateway notification about order 0. *)
Definition notification (status_code md5sig : string) : WebhookBody.t :=
  {| WebhookBody.merchant_id := "1211149";
     WebhookBody.order_id := "ORD1";
     WebhookBody.payment_id := "320025";
     WebhookBody.payhere_amount := "300";
     WebhookBody.payhere_currency := "LKR";
     WebhookBody.status_code := status_code;
     WebhookBody.md5sig := md5sig;
     WebhookBody.custom_1 := 0%N;
     WebhookBody.custom_2 := Some 7%N |}.

Definition tracking : TrackingInfo :=
  {| provider := "DHL"; trackingNumber := "JD0146"; tracking_status := "sent" |}.

(** Every stored order passes the schema. *)
Definition orders_valid (db : DB) : Prop :=
  forall id o, Orders db !! id = Some o -> Order.validate o = true.

(** ** The rest of [routes/payments.js] *)



(** The amount of a checkout request: a JSON number or a string. *)
Inductive json_amount :=
| amount_number (n : Z)
| amount_string (s : string).


Module HashBody.
Record t := mk
  { orderId : option string;
    amount : option json_amount;
    currency : option string }.
End HashBody.


Section Hash.

(** [Number(amount).toFixed(2)] *)
Variable toFixed2 : json_amount -> string.


End Hash.

(** What [new Payment(data)] is given; a path that [data] does not set is
    [None], and [data]'s properties that are no path of the schema are
    dropped. *)
Module PaymentData.
Record t := mk
  { order : option ObjectId;
    amount : option Z;
    method : option string;
    status : option string;
    transactionId : option string }.

(** The schema check on such a document: [status] has the default
    "pending". *)
Definition to_doc (d : t) : option Payment.doc :=
  match order d, method d with
  | Some o, Some m =>
    let p := {| Payment.order := o; Payment.amount := amount d;
                Payment.method := m;
                Payment.status := default "pending" (status d);
                Payment.transactionId := transactionId d |} in
    if Payment.validate p then Some p else None
  | _, _ => None
  end.
End PaymentData.

(** [new Payment(data)] followed by [save()]. *)
Definition Payment_create_data (d : PaymentData.t) : handler ObjectId :=
  match PaymentData.to_doc d with
  | Some p => Payment_create p
  | None => throw
  end.

(** [POST /payhere-webhook] in the earlier revision of the file.  The
    payment is built from [orderId], [userId], [paymentId], [amount],
    [currency], [status], [paymentMethod], [gateway] and
    [gatewayResponse]; of these the schema has [amount] and [status]. *)
Definition legacy_payhere_webhook (Number : string -> option Z)
    (PAYHERE_SECRET : option string) (b : WebhookBody.t)
  : DB -> response * DB :=
  try_catch
    (if negb (String.eqb (WebhookBody.md5sig b)
                (legacy_expectedMd5sig PAYHERE_SECRET b)) then
       send (Json 400 (error "Invalid signature"))
     else
       found ← Order_findById (WebhookBody.custom_1 b);
       match found with
       | None => send (Json 404 (error "Order not found"))
       | Some order =>
         let id := WebhookBody.custom_1 b in
         Payment_create_data
           {| PaymentData.order := None;
              PaymentData.amount := Number (WebhookBody.payhere_amount b);
              PaymentData.method := None;
              PaymentData.status :=
                Some (if String.eqb (WebhookBody.status_code b) "2"
                      then "completed" else "failed");
              PaymentData.transactionId := None |} ;;
         (if String.eqb (WebhookBody.status_code b) "2" then
            Order_save id (Order.set_status "confirmed" order)
          else
            Order_save id (Order.set_status "payment_failed" order)) ;;
         send (Json 200 (success true))
       end)
    (error "Webhook processing failed").

(** ** Statistics ([GET /admin/stats] of [routes/orders.js], the revenue
    of the admin dashboard) *)

Definition order_docs (db : DB) : list Order.doc :=
  (map_to_list (Orders db)).*2.

Definition payment_docs (db : DB) : list Payment.doc :=
  (map_to_list (Payments db)).*2.

(** [Model.countDocuments(query)] on the documents [l]. *)
Definition countDocuments {A} (query : A -> bool) (l : list A) : nat :=
  length (List.filter query l).

(** [{ $group: { _id: null, total: { $sum: field } } }] after a [$match],
    read with [result[0]?.total || 0]: no matching document gives 0, a
    document without the field adds nothing. *)
Definition sum_total {A} (query : A -> bool) (field : A -> option Z)
    (l : list A) : Z :=
  foldr (fun d acc => default 0 (field d) + acc) 0 (List.filter query l).

Definition has_status (s : string) (o : Order.doc) : bool :=
  String.eqb (Order.status o) s.

Record OrderStats := mkOrderStats
  { totalOrders : nat;
    pendingOrders : nat;
    confirmedOrders : nat;
    shippedOrders : nat;
    deliveredOrders : nat;
    cancelledOrders : nat;
    totalRevenue : Z }.

(** [GET /admin/stats] *)
Definition order_stats (db : DB) : OrderStats :=
  let l := order_docs db in
  {| totalOrders := countDocuments (fun _ => true) l;
     pendingOrders := countDocuments (has_status "pending") l;
     confirmedOrders := countDocuments (has_status "confirmed") l;
     shippedOrders := countDocuments (has_status "shipped") l;
     deliveredOrders := countDocuments (has_status "delivered") l;
     cancelledOrders := countDocuments (has_status "cancelled") l;
     totalRevenue :=
       sum_total (fun o => includes ["delivered"; "shipped"] (Order.status o))
                 Order.totalAmount l |}.

(** The total revenue of [GET /dashboard]: the amounts of the paid
    payments. *)
Definition paid_revenue (db : DB) : Z :=
  sum_total (fun p => String.eqb (Payment.status p) "paid") Payment.amount
            (payment_docs db).

(** ** Product status ([PATCH /products/:id/status] of [routes/admin.js]) *)

(** [product.save()]: [title], [price] and [stock] are required. *)
Definition Product_validate (p : Product.doc) : bool :=
  negb (String.eqb (Product.title p) "").

Definition Product_set_isActive (a : bool) (p : Product.doc) : Product.doc :=
  {| Product.title := Product.title p; Product.price := Product.price p;
     Product.stock := Product.stock p; Product.isActive := a |}.

Definition Product_save (id : ObjectId) (p : Product.doc) : handler unit :=
  fun db =>
    if Product_validate p then
      (Value tt,
       {| Products := <[id := p]> (Products db); Orders := Orders db;
          Payments := Payments db |})
    else (Thrown, db).

Definition updateProductStatus (id : ObjectId) (isActive : bool)
  : DB -> response * DB :=
  try_catch
    (found ← Product_findById id;
     match found with
     | None => send (Json 404 (error "Product not found"))
     | Some product =>
       let product := Product_set_isActive isActive product in
       Product_save id product ;;
       send (Json 200
         (message (if isActive then "Product activated successfully"
                   else "Product deactivated successfully")))
     end)
    (error "Failed to update product status").

(** A digit of an uppercase hexadecimal numeral. *)
Definition is_upper_hex (c : ascii) : bool :=
  let n := N_of_ascii c in
  (((48 <=? n) && (n <=? 57)) || ((65 <=? n) && (n <=? 70)))%N.

Definition upper_hex_string (s : string) : bool :=
  forallb is_upper_hex (list_ascii_of_string s).

(** Operations that write at most once, at their very end. *)
Definition single_write (op : operation) : bool :=
  match op with
  | UpdateStatus _ _ | CancelOrder _ _ | Confirm _ => true
  | CreateOrder _ _ | PayhereWebhook _ => false
  end.

(** An order of a guest: it has no owner. *)
Definition guest_order_of (status : string) (q : Z) : Order.doc :=
  {| Order.user := None;
     Order.products := [ {| product := 1; quantity := q |} ];
     Order.totalAmount := Some (100 * q);
     Order.status := status;
     Order.shippingAddress := "12 Galle Road, Colombo";
     Order.trackingInfo := None |}.

Definition shop_with_guest_order (stock : Z) (status : string) (q : Z) : DB :=
  {| Products := {[ 1%N := vase stock ]};
     Orders := {[ 0%N := guest_order_of status q ]};
     Payments := ∅ |}.

(** A sequence of requests, served one after the other. *)
Definition run_all (Number : string -> option Z) (env : Env)
    (ops : list operation) (db : DB) : DB :=
  foldl (fun d op => snd (run Number env op d)) db ops.

Definition is_CreateOrder (op : operation) : bool :=
  match op with
  | CreateOrder _ _ => true
  | _ => false
  end.

(** Two versions of an order that differ at most in status and tracking
    info. *)
Definition same_order (o o' : Order.doc) : Prop :=
  Order.user o' = Order.user o
  /\ Order.products o' = Order.products o
  /\ Order.totalAmount o' = Order.totalAmount o
  /\ Order.shippingAddress o' = Order.shippingAddress o.

(** A payment record as the webhook writes it, for an order that is
    stored. *)
Definition gateway_payment (db : DB) (p : Payment.doc) : Prop :=
  Payment.method p = "card"
  /\ (Payment.status p = "paid" \/ Payment.status p = "failed")
  /\ is_Some (Payment.amount p)
  /\ is_Some (Payment.transactionId p)
  /\ is_Some (Orders db !! Payment.order p).

(** What an order adds to the total revenue of the statistics. *)
Definition revenue_share (o : Order.doc) : Z :=
  if includes ["delivered"; "shipped"] (Order.status o)
  then default 0 (Order.totalAmount o) else 0.

(** The contact fields a guest order needs. *)
Definition has_contact (b : CreateOrderBody.t) : bool :=
  truthy (CreateOrderBody.customerName b)
  && truthy (CreateOrderBody.customerEmail b)
  && truthy (CreateOrderBody.customerPhone b).

(** * Properties *)

(** ** The digest on known inputs *)

Example md5_empty : MD5.md5_hex "" = "d41d8cd98f00b204e9800998ecf8427e".
Proof. vm_compute. reflexivity. Qed.

Example md5_abc : MD5.md5_hex "abc" = "900150983cd24fb0d6963f7d28e17f72".
Proof. vm_compute. reflexivity. Qed.

Example md5_fox :
  MD5.md5_hex "The quick brown fox jumps over the lazy dog"
  = "9e107d9d372bb6826bd81d3542a419d6".
Proof. vm_compute. reflexivity. Qed.

Example md5_padding_block :
  MD5.md5_hex "aaaaaaaaaaaaaaaaaaaaaaaaaaaaaaaaaaaaaaaaaaaaaaaaaaaaaaaa"
  = "3b0c8ac703f828b04c6c197006d17218".
Proof. vm_compute. reflexivity. Qed.

Example md5_two_blocks :
  MD5.md5_hex "aaaaaaaaaaaaaaaaaaaaaaaaaaaaaaaaaaaaaaaaaaaaaaaaaaaaaaaaaaaaaaaa"
  = "014842d480b571495a4a0363793f7367".
Proof. vm_compute. reflexivity. Qed.

Example md5_upper :
  toUpperCase (MD5.md5_hex "CHANGE123") = "F63262DF9B7EBE9697A0B0D1D771B1C6".
Proof. vm_compute. reflexivity. Qed.

(** ** The handler monad *)

Ltac handler_unfold :=
  unfold try_catch, mbind, handler_bind, mret, handler_ret, send, throw,
    Order_findById, Product_findById, Order_create, Order_save,
    Payment_create, Product_inc_stock in *.

Lemma bind_value {A B} (m : handler A) (k : A -> handler B) db a db' :
  m db = (Value a, db') -> (m ≫= k) db = k a db'.
Proof. unfold mbind, handler_bind. by intros ->. Qed.

Lemma bind_sent {A B} (m : handler A) (k : A -> handler B) db r db' :
  m db = (Sent r, db') -> (m ≫= k) db = (Sent r, db').
Proof. unfold mbind, handler_bind. by intros ->. Qed.

Lemma bind_thrown {A B} (m : handler A) (k : A -> handler B) db db' :
  m db = (Thrown, db') -> (m ≫= k) db = (Thrown, db').
Proof. unfold mbind, handler_bind. by intros ->. Qed.

Lemma try_catch_sent m e db r db' :
  m db = (Sent r, db') -> try_catch m e db = (r, db').
Proof. unfold try_catch. by intros ->. Qed.

Lemma try_catch_proper m m' e db :
  m db = m' db -> try_catch m e db = try_catch m' e db.
Proof. unfold try_catch. by intros ->. Qed.

Lemma try_catch_thrown m e db db' :
  m db = (Thrown, db') -> try_catch m e db = (Json 500 e, db').
Proof. unfold try_catch. by intros ->. Qed.

Lemma for_of_cons {A} (x : A) (l : list A) (f : A -> handler unit) db :
  for_of (x :: l) f db = (f x ;; for_of l f) db.
Proof. reflexivity. Qed.

(** ** Validation of the line items *)

Lemma check_stock_ok item db :
  ~ bad_item db item -> check_stock item db = (Value tt, db).
Proof.
  unfold bad_item, check_stock. handler_unfold.
  destruct (Products db !! product item) as [p|]; [|tauto].
  intros Hgood.
  destruct (Product.isActive p); simpl; [|tauto].
  destruct (Z.ltb_spec (Product.stock p) (quantity item)); [tauto|done].
Qed.

Lemma check_stock_bad item db :
  bad_item db item -> exists e, check_stock item db = (Sent (Json 400 e), db).
Proof.
  unfold bad_item, check_stock. handler_unfold.
  destruct (Products db !! product item) as [p|]; [|eauto].
  intros [Hact | Hlt].
  - rewrite Hact. simpl. eauto.
  - destruct (Product.isActive p); simpl; [|eauto].
    destruct (Z.ltb_spec (Product.stock p) (quantity item)); [eauto|lia].
Qed.

Lemma bad_item_dec db item : bad_item db item \/ ~ bad_item db item.
Proof.
  unfold bad_item. destruct (Products db !! product item) as [p|]; [|tauto].
  destruct (Product.isActive p); [|tauto].
  destruct (Z.lt_ge_cases (Product.stock p) (quantity item)); [tauto|].
  right. intros [?|?]; [done|lia].
Qed.

(** The loop either passes every item and goes on, or sends a 400 at the
    first refused item; it writes nothing. *)
Lemma check_stock_loop items db :
  (Forall (fun item => ~ bad_item db item) items
   /\ for_of items check_stock db = (Value tt, db))
  \/ (Exists (bad_item db) items
      /\ exists e, for_of items check_stock db = (Sent (Json 400 e), db)).
Proof.
  induction items as [|item rest IH].
  - left. split; [constructor | reflexivity].
  - rewrite for_of_cons.
    destruct (bad_item_dec db item) as [Hbad | Hgood].
    + right. split; [by constructor|].
      destruct (check_stock_bad _ _ Hbad) as [e He].
      exists e. by apply bind_sent.
    + rewrite (bind_value _ _ _ _ _ (check_stock_ok _ _ Hgood)).
      destruct IH as [[Hall ->] | [Hex [e ->]]].
      * left. split; [by constructor | reflexivity].
      * right. split; [by constructor 2 | eauto].
Qed.

(** C2: an order-creation request with a line item that names no product,
    an inactive product, or more than the product's stock is answered with
    400, and the database (stocks, orders, payments) is what it was. *)
Theorem createOrder_rejects_bad_item user b items db :
  CreateOrderBody.products b = Some items ->
  Exists (bad_item db) items ->
  exists e, createOrder user b db = (Json 400 e, db).
Proof.
  intros Hitems Hbad. unfold createOrder. rewrite Hitems.
  destruct items as [|item rest]; [by apply Exists_nil in Hbad|].
  destruct (truthy (CreateOrderBody.shippingAddress b)); cbn [negb].
  - destruct (check_stock_loop (item :: rest) db) as [[Hall _] | [_ [e He]]].
    + exfalso. apply Exists_exists in Hbad as [x [Hin Hx]].
      rewrite Forall_forall in Hall. exact (Hall x Hin Hx).
    + exists e. apply try_catch_sent. by apply bind_sent.
  - eexists. by apply try_catch_sent.
Qed.

(** ** Order creation, step by step *)

Lemma Order_save_ok id o db :
  Order.validate o = true ->
  Order_save id o db
  = (Value tt, {| Products := Products db; Orders := <[id := o]> (Orders db);
                  Payments := Payments db |}).
Proof. unfold Order_save. by intros ->. Qed.

Lemma Order_save_fail id o db :
  Order.validate o = false -> Order_save id o db = (Thrown, db).
Proof. unfold Order_save. by intros ->. Qed.

Lemma Order_create_ok o db :
  Order.validate o = true ->
  Order_create o db
  = (Value (fresh_id (Orders db)),
     {| Products := Products db;
        Orders := <[fresh_id (Orders db) := o]> (Orders db);
        Payments := Payments db |}).
Proof.
  intros Hv. unfold Order_create.
  by rewrite (bind_value _ _ _ _ _ (Order_save_ok _ _ _ Hv)).
Qed.

Lemma Order_create_fail o db :
  Order.validate o = false -> Order_create o db = (Thrown, db).
Proof.
  intros Hv. unfold Order_create.
  by rewrite (bind_thrown _ _ _ _ (Order_save_fail _ _ _ Hv)).
Qed.

Lemma decrement_loop items db :
  for_of items decrement_stock db
  = (Value tt, {| Products := dec_all items (Products db);
                  Orders := Orders db; Payments := Payments db |}).
Proof.
  revert db. induction items as [|item rest IH]; intros db.
  - by destruct db.
  - rewrite for_of_cons. unfold decrement_stock at 1.
    erewrite bind_value; [|reflexivity]. by rewrite IH.
Qed.

Lemma inc_stock_0 p : Product.inc_stock 0 p = p.
Proof. destruct p. unfold Product.inc_stock. simpl. f_equal. lia. Qed.

Lemma inc_stock_inc_stock a b p :
  Product.inc_stock a (Product.inc_stock b p) = Product.inc_stock (b + a) p.
Proof. unfold Product.inc_stock. simpl. f_equal. lia. Qed.

(** The decrements add up per product, whatever the order of the lines. *)
Lemma dec_all_lookup items ps id :
  dec_all items ps !! id
  = Product.inc_stock (- requested id items) <$> ps !! id.
Proof.
  revert ps. induction items as [|item rest IH]; intros ps; simpl.
  - destruct (ps !! id) as [p|]; simpl; [|done]. by rewrite inc_stock_0.
  - unfold dec_all in *. simpl. rewrite IH, lookup_alter.
    destruct (N.eqb_spec (product item) id) as [->|Hne].
    + rewrite decide_True by done.
      destruct (ps !! id) as [p|]; simpl; [|done].
      rewrite inc_stock_inc_stock. do 2 f_equal. lia.
    + by rewrite decide_False.
Qed.

Lemma truthy_default v : truthy v = true -> String.eqb (default "" v) "" = false.
Proof.
  destruct v as [s|]; simpl; [|done]. by destruct (String.eqb s "").
Qed.

(** What a run of [createOrder] can do: answer 400 or 500 and write
    nothing; or store the order, decrement the stocks and then fail on the
    payment, whose [method] is not one of the schema's. *)
Lemma createOrder_outcome user b db :
  (exists r, createOrder user b db = (r, db) /\ (code r = 400 \/ code r = 500))
  \/ (exists items,
        CreateOrderBody.products b = Some items
        /\ Forall (fun item => ~ bad_item db item) items
        /\ Order.validate (new_order user b items) = true
        /\ createOrder user b db
           = (Json 500 (error "Failed to create order"),
              {| Products := dec_all items (Products db);
                 Orders := <[fresh_id (Orders db) := new_order user b items]>
                             (Orders db);
                 Payments := Payments db |})).
Proof.
  unfold createOrder.
  destruct (CreateOrderBody.products b) as [items|] eqn:Hitems;
    [|left; eexists; split; [by apply try_catch_sent|by left]].
  destruct items as [|item rest];
    [left; eexists; split; [by apply try_catch_sent|by left]|].
  set (items := item :: rest).
  destruct (truthy (CreateOrderBody.shippingAddress b)) eqn:Hship; cbn [negb];
    [|left; eexists; split; [by apply try_catch_sent|by left]].
  destruct (check_stock_loop items db) as [[Hall Hloop] | [_ [e He]]].
  2:{ left. eexists. split; [apply try_catch_sent; by apply bind_sent|by left]. }
  erewrite (try_catch_proper _ _ _ _ (bind_value _ _ _ _ _ Hloop)).
  assert (Hguest :
    (exists owner, _id <$> user = owner /\
       (match user with
        | Some u => mret (Some (_id u))
        | None =>
          if negb (truthy (CreateOrderBody.customerName b))
             || negb (truthy (CreateOrderBody.customerEmail b))
             || negb (truthy (CreateOrderBody.customerPhone b))
          then send (Json 400
            (error "Customer information is required for guest orders"))
          else mret None
        end : handler (option N)) db = (Value owner, db))
    \/ (match user with
        | Some u => mret (Some (_id u))
        | None =>
          if negb (truthy (CreateOrderBody.customerName b))
             || negb (truthy (CreateOrderBody.customerEmail b))
             || negb (truthy (CreateOrderBody.customerPhone b))
          then send (Json 400
            (error "Customer information is required for guest orders"))
          else mret None
        end : handler (option N)) db
       = (Sent (Json 400
            (error "Customer information is required for guest orders")), db)).
  { destruct user as [u|]; [left; by eexists|].
    destruct (negb _ || negb _ || negb _); [by right | left; by eexists]. }
  destruct Hguest as [[owner [Howner Hg]] | Hg].
  2:{ left. eexists. split; [apply try_catch_sent; by apply bind_sent|by left]. }
  erewrite (try_catch_proper _ _ _ _ (bind_value _ _ _ _ _ Hg)).
  subst owner. fold (new_order user b items).
  destruct (Order.validate (new_order user b items)) eqn:Hvalid.
  2:{ left. eexists. split;
        [apply try_catch_thrown, bind_thrown; by apply Order_create_fail
        |by right]. }
  right. exists items. repeat split; [done..|].
  apply try_catch_thrown.
  erewrite bind_value; [|by apply Order_create_ok].
  erewrite bind_value; [|apply decrement_loop].
  apply bind_thrown. unfold Payment_create. simpl.
  by destruct (CreateOrderBody.totalAmount b).
Qed.

(** ** Cancellation, step by step *)

Lemma may_cancel_guard user o :
  negb (String.eqb (role user) "admin")
  && match Order.user o with
     | Some owner => negb (N.eqb owner (_id user))
     | None => false
     end
  = negb (may_cancel user o).
Proof.
  unfold may_cancel. destruct (String.eqb (role user) "admin"); simpl; [done|].
  by destruct (Order.user o).
Qed.

(** What a run of [cancelOrder] can do.  The stock is never touched: the
    test on [order.status] that guards the restoring loop reads the status
    that was just set to [cancelled]. *)
Lemma cancelOrder_outcome user id db :
  match Orders db !! id with
  | None => cancelOrder user id db = (Json 404 (error "Order not found"), db)
  | Some o =>
    if negb (may_cancel user o) then
      cancelOrder user id db
      = (Json 403 (error "Not authorized to cancel this order"), db)
    else if terminal (Order.status o) then
      exists e, cancelOrder user id db = (Json 400 (error e), db)
    else if Order.validate (Order.set_status "cancelled" o) then
      cancelOrder user id db
      = (Json 200 (message "Order cancelled successfully"),
         with_order id (Order.set_status "cancelled" o) db)
    else
      cancelOrder user id db = (Json 500 (error "Failed to cancel order"), db)
  end.
Proof.
  unfold cancelOrder, terminal, with_order.
  unfold try_catch, mbind, handler_bind, Order_findById.
  destruct (Orders db !! id) as [o|]; [|done].
  rewrite may_cancel_guard.
  destruct (may_cancel user o); cbn [negb]; [|done].
  destruct (String.eqb (Order.status o) "cancelled") eqn:Hc.
  { rewrite orb_true_r. eauto. }
  destruct (String.eqb (Order.status o) "delivered") eqn:Hd.
  { simpl. eauto. }
  simpl. unfold Order_save.
  by destruct (Order.validate (Order.set_status "cancelled" o)).
Qed.

(** ** Status update, webhook and confirmation, step by step *)

Lemma updateStatus_outcome id b db :
  match StatusBody.status b with
  | None => updateStatus id b db = (Json 400 (error "Invalid status"), db)
  | Some s =>
    if negb (includes validStatuses s) then
      updateStatus id b db = (Json 400 (error "Invalid status"), db)
    else
      match Orders db !! id with
      | None => updateStatus id b db = (Json 404 (error "Order not found"), db)
      | Some o =>
        let o' := updated_order s (StatusBody.trackingInfo b) o in
        if Order.validate o' then
          updateStatus id b db = (Json 200 (order_updated id), with_order id o' db)
        else
          updateStatus id b db
          = (Json 500 (error "Failed to update order status"), db)
      end
  end.
Proof.
  unfold updateStatus, with_order, updated_order.
  unfold try_catch, mbind, handler_bind, Order_findById.
  destruct (StatusBody.status b) as [s|]; [|done].
  destruct (includes validStatuses s); cbn [negb]; [|done].
  destruct (Orders db !! id) as [o|]; [|done].
  unfold Order_save. cbv zeta.
  by destruct (Order.validate _).
Qed.

Section PaymentsOutcome.

Variable Number : string -> option Z.
Variable env : Env.

Lemma payhere_webhook_outcome b db :
  let id := WebhookBody.custom_1 b in
  let p := webhook_payment Number b in
  let db1 := with_payment (fresh_id (Payments db)) p db in
  if negb (String.eqb (WebhookBody.md5sig b) (expectedMd5sig env b)) then
    payhere_webhook Number env b db
    = (Json 400 (error "Invalid signature"), db)
  else
    match Orders db !! id with
    | None =>
      payhere_webhook Number env b db
      = (Json 404 (error "Order not found"), db)
    | Some o =>
      if negb (Payment.validate p) then
        payhere_webhook Number env b db
        = (Json 500 (error "Webhook processing failed"), db)
      else if String.eqb (WebhookBody.status_code b) "2"
              && Order.validate (Order.set_status "confirmed" o) then
        payhere_webhook Number env b db
        = (Json 200 (success true),
           with_order id (Order.set_status "confirmed" o) db1)
      else
        payhere_webhook Number env b db
        = (Json 500 (error "Webhook processing failed"), db1)
    end.
Proof.
  unfold payhere_webhook, with_order, with_payment.
  unfold try_catch, mbind, handler_bind, Order_findById.
  cbv zeta.
  destruct (negb (String.eqb (WebhookBody.md5sig b) (expectedMd5sig env b)));
    [done|].
  destruct (Orders db !! WebhookBody.custom_1 b) as [o|]; [|done].
  unfold Payment_create. fold (webhook_payment Number b).
  destruct (Payment.validate (webhook_payment Number b)); cbn [negb]; [|done].
  destruct (String.eqb (WebhookBody.status_code b) "2"); cbn [andb].
  - unfold Order_save.
    by destruct (Order.validate (Order.set_status "confirmed" o)).
  - unfold Order_save, Order.validate. cbn.
    by rewrite andb_false_r.
Qed.

Lemma confirm_outcome b db :
  let id := ConfirmBody.orderId b in
  match Orders db !! id with
  | None => confirm b db = (Json 404 (error "Order not found"), db)
  | Some o =>
    if String.eqb (ConfirmBody.status b) "completed" then
      if Order.validate (Order.set_status "confirmed" o) then
        confirm b db
        = (Json 200 (success true),
           with_order id (Order.set_status "confirmed" o) db)
      else
        confirm b db = (Json 500 (error "Payment confirmation failed"), db)
    else confirm b db = (Json 200 (success false), db)
  end.
Proof.
  unfold confirm, with_order.
  unfold try_catch, mbind, handler_bind, Order_findById. cbv zeta.
  destruct (Orders db !! ConfirmBody.orderId b) as [o|]; [|done].
  destruct (String.eqb (ConfirmBody.status b) "completed"); [|done].
  unfold Order_save.
  by destruct (Order.validate (Order.set_status "confirmed" o)).
Qed.

End PaymentsOutcome.

(** ** Claims about order creation being refused *)

Lemma createOrder_rejects_bad_item_witness :
  let items := [ {| product := 1; quantity := 6 |} ] in
  Exists (bad_item (shop 5)) items
  /\ exists e, createOrder None (guest_order items 600) (shop 5)
              = (Json 400 e, shop 5).
Proof.
  assert (Hbad : Exists (bad_item (shop 5))
                   [ {| product := 1; quantity := 6 |} ]).
  { constructor. vm_compute. right. reflexivity. }
  split; [exact Hbad|].
  apply (createOrder_rejects_bad_item None _
           [ {| product := 1; quantity := 6 |} ] (shop 5)).
  - reflexivity.
  - exact Hbad.
Defined.

Example createOrder_missing_product :
  createOrder None (guest_order [ {| product := 2; quantity := 1 |} ] 100)
    (shop 5)
  = (Json 400 (product_not_found 2), shop 5).
Proof. vm_compute. reflexivity. Qed.

(** ** Claims about the webhook signature *)

(** C1: the webhook passes the signature check exactly when [md5sig] is
    the uppercase hexadecimal MD5 digest of merchant id, gateway order id,
    amount, currency, status code and the uppercase hexadecimal MD5 digest
    of the merchant secret (the empty string when none is configured),
    concatenated in this order; with any other [md5sig] the answer is
    400 "Invalid signature" and the database is what it was. *)
Theorem payhere_webhook_signature Number env b db :
  let secretDigest :=
    toUpperCase (MD5.md5_hex (default "" (PAYHERE_SECRET_KEY env))) in
  let digest :=
    toUpperCase (MD5.md5_hex
      (WebhookBody.merchant_id b ++ WebhookBody.order_id b
       ++ WebhookBody.payhere_amount b ++ WebhookBody.payhere_currency b
       ++ WebhookBody.status_code b ++ secretDigest)%string) in
  (WebhookBody.md5sig b = digest
   /\ fst (payhere_webhook Number env b db)
      <> Json 400 (error "Invalid signature"))
  \/ (WebhookBody.md5sig b <> digest
      /\ payhere_webhook Number env b db
         = (Json 400 (error "Invalid signature"), db)).
Proof.
  intros secretDigest digest.
  pose proof (payhere_webhook_outcome Number env b db) as H. cbv zeta in H.
  change (expectedMd5sig env b) with digest in H.
  destruct (String.eqb_spec (WebhookBody.md5sig b) digest) as [Heq | Hne];
    cbn [negb] in H.
  - left. split; [done|].
    destruct (Orders db !! WebhookBody.custom_1 b); [|by rewrite H].
    destruct (negb _); [by rewrite H|].
    destruct (_ && _); by rewrite H.
  - right. done.
Qed.

(** A notification signed as the gateway signs it is taken; the same
    signature in lowercase, or with one digit changed, is not. *)
Example webhook_signed :
  fst (payhere_webhook Number_digits demo_env
         (notification "2" "36827BDD26D1F493AE97936865009596")
         (shop_with_order 2 "pending" 3))
  = Json 200 (success true).
Proof. vm_compute. reflexivity. Qed.

Example webhook_lowercase_signature :
  fst (payhere_webhook Number_digits demo_env
         (notification "2" "36827bdd26d1f493ae97936865009596")
         (shop_with_order 2 "pending" 3))
  = Json 400 (error "Invalid signature").
Proof. vm_compute. reflexivity. Qed.

Example webhook_one_digit_off :
  fst (payhere_webhook Number_digits demo_env
         (notification "2" "36827BDD26D1F493AE97936865009597")
         (shop_with_order 2 "pending" 3))
  = Json 400 (error "Invalid signature").
Proof. vm_compute. reflexivity. Qed.

(** The earlier revision of the handler expects another signature: it
    appends the secret itself. *)
Example legacy_signature_differs :
  legacy_expectedMd5sig (Some "s3cret") (notification "2" "")
  = "4B960FDE38E7BDA29E0297373362B71E"
  /\ expectedMd5sig demo_env (notification "2" "")
     = "36827BDD26D1F493AE97936865009596".
Proof. split; vm_compute; reflexivity. Qed.

(** ** Claims about cancellation *)

Lemma cancelOrder_Products user id db :
  Products (snd (cancelOrder user id db)) = Products db.
Proof.
  pose proof (cancelOrder_outcome user id db) as H.
  destruct (Orders db !! id) as [o|]; [|by rewrite H].
  destruct (negb _); [by rewrite H|].
  destruct (terminal _); [by destruct H as [e ->]|].
  destruct (Order.validate _); by rewrite H.
Qed.

Lemma cancelOrder_Payments user id db :
  Payments (snd (cancelOrder user id db)) = Payments db.
Proof.
  pose proof (cancelOrder_outcome user id db) as H.
  destruct (Orders db !! id) as [o|]; [|by rewrite H].
  destruct (negb _); [by rewrite H|].
  destruct (terminal _); [by destruct H as [e ->]|].
  destruct (Order.validate _); by rewrite H.
Qed.

(** C3: cancelling a confirmed order for three vases, by its owner: the
    order becomes cancelled and the stock stays at 2, the three vases are
    not added back. *)
Theorem cancel_confirmed_order_keeps_stock :
  let db := shop_with_order 2 "confirmed" 3 in
  let r := cancelOrder customer 0 db in
  fst r = Json 200 (message "Order cancelled successfully")
  /\ Order.status <$> Orders (snd r) !! 0%N = Some "cancelled"
  /\ stock_of db 1 = Some 2
  /\ stock_of (snd r) 1 = Some 2.
Proof. vm_compute. repeat split; reflexivity. Qed.

(** The part of C3 about pending orders: cancelling one leaves every
    stock as it is. *)
Lemma cancel_pending_order_keeps_stock user id db o :
  Orders db !! id = Some o -> Order.status o = "pending" ->
  forall p, stock_of (snd (cancelOrder user id db)) p = stock_of db p.
Proof. intros _ _ p. unfold stock_of. by rewrite cancelOrder_Products. Qed.

Lemma terminal_cancelled_or_delivered s :
  s = "cancelled" \/ s = "delivered" -> terminal s = true.
Proof. by intros [-> | ->]. Qed.

(** C7, as the handler has it: cancelling an order that is already
    cancelled or delivered fails and writes nothing; the answer is the
    validation error 400 for a caller who may cancel the order (an admin,
    its owner, anyone when it has no owner) and the authorization error 403
    for any other caller. *)
Theorem cancel_terminal_order_refused user id db o :
  Orders db !! id = Some o ->
  Order.status o = "cancelled" \/ Order.status o = "delivered" ->
  exists e,
    cancelOrder user id db
    = (Json (if may_cancel user o then 400 else 403) (error e), db).
Proof.
  intros Ho Hs. pose proof (cancelOrder_outcome user id db) as H.
  rewrite Ho in H. destruct (may_cancel user o); cbn [negb] in H; [|eauto].
  by rewrite (terminal_cancelled_or_delivered _ Hs) in H.
Qed.

Lemma cancel_terminal_order_refused_witness :
  let db := shop_with_order 2 "delivered" 3 in
  Orders db !! 0%N = Some (order_of "delivered" 3)
  /\ exists e, cancelOrder customer 0 db = (Json 400 (error e), db).
Proof.
  split; [reflexivity|].
  apply (cancel_terminal_order_refused customer 0
           (shop_with_order 2 "delivered" 3) (order_of "delivered" 3)).
  - reflexivity.
  - right. reflexivity.
Defined.

(** C7 as stated fails: a caller who is neither admin nor owner and asks
    to cancel a cancelled order gets 403, not the validation error. *)
Lemma cancel_terminal_order_by_stranger :
  let db := shop_with_order 2 "cancelled" 3 in
  Order.status <$> Orders db !! 0%N = Some "cancelled"
  /\ cancelOrder stranger 0 db
     = (Json 403 (error "Not authorized to cancel this order"), db)
  /\ code (fst (cancelOrder stranger 0 db)) <> 400.
Proof. vm_compute. repeat split; try reflexivity. discriminate. Qed.

(** ** Claims about the outcome of the webhook *)

Lemma validate_set_status o s :
  Order.validate o = true -> includes Order.status_enum s = true ->
  Order.validate (Order.set_status s o) = true.
Proof.
  unfold Order.validate. cbn [Order.totalAmount Order.status
    Order.shippingAddress Order.set_status].
  intros H Hs. rewrite Hs.
  destruct (Order.totalAmount o); [|done]. cbn [andb] in *.
  destruct (includes Order.status_enum (Order.status o)); [|done]. done.
Qed.

(** The success half of C4: a signed notification with status code "2"
    and a numeric amount stores a paid payment that carries the gateway's
    payment id, and confirms the order. *)
Lemma payhere_webhook_success Number env b db o a :
  WebhookBody.md5sig b = expectedMd5sig env b ->
  Orders db !! WebhookBody.custom_1 b = Some o ->
  Order.validate o = true ->
  WebhookBody.status_code b = "2" ->
  Number (WebhookBody.payhere_amount b) = Some a ->
  payhere_webhook Number env b db
  = (Json 200 (success true),
     with_order (WebhookBody.custom_1 b) (Order.set_status "confirmed" o)
       (with_payment (fresh_id (Payments db))
          {| Payment.order := WebhookBody.custom_1 b;
             Payment.amount := Some a;
             Payment.method := "card";
             Payment.status := "paid";
             Payment.transactionId := Some (WebhookBody.payment_id b) |} db)).
Proof.
  intros Hsig Ho Hv Hcode Ha.
  pose proof (payhere_webhook_outcome Number env b db) as H. cbv zeta in H.
  rewrite Hsig, String.eqb_refl, Ho in H. cbn [negb] in H.
  unfold webhook_payment in H. rewrite Hcode, Ha in H.
  rewrite (validate_set_status o "confirmed" Hv) in H by reflexivity.
  exact H.
Qed.

(** The failure half, as the code has it: with any other status code the
    failed payment is stored, saving the order with [payment_failed] is
    refused by the schema, and the answer is 500; no order changes. *)
Lemma payhere_webhook_failure Number env b db o :
  WebhookBody.md5sig b = expectedMd5sig env b ->
  Orders db !! WebhookBody.custom_1 b = Some o ->
  WebhookBody.status_code b <> "2" ->
  fst (payhere_webhook Number env b db)
  = Json 500 (error "Webhook processing failed")
  /\ Orders (snd (payhere_webhook Number env b db)) = Orders db.
Proof.
  intros Hsig Ho Hcode.
  pose proof (payhere_webhook_outcome Number env b db) as H. cbv zeta in H.
  rewrite Hsig, String.eqb_refl, Ho in H. cbn [negb] in H.
  apply String.eqb_neq in Hcode. rewrite Hcode in H. cbn [andb] in H.
  destruct (negb _); by rewrite H.
Qed.

(** C4 at a failure notification: the notification is signed, order 0 is
    pending; the answer is 500, the order is still pending, and a failed
    payment has been stored. *)
Theorem webhook_failure_leaves_order_pending :
  let db := shop_with_order 2 "pending" 3 in
  let b := notification "1" "3DFF2AD63CDDA69034827B6B6BDE76BE" in
  let r := payhere_webhook Number_digits demo_env b db in
  WebhookBody.md5sig b = expectedMd5sig demo_env b
  /\ fst r = Json 500 (error "Webhook processing failed")
  /\ Order.status <$> Orders (snd r) !! 0%N = Some "pending"
  /\ Payment.status <$> Payments (snd r) !! 0%N = Some "failed".
Proof. vm_compute. repeat split; reflexivity. Qed.

Example webhook_success_confirms :
  let db := shop_with_order 2 "pending" 3 in
  let b := notification "2" "36827BDD26D1F493AE97936865009596" in
  let r := payhere_webhook Number_digits demo_env b db in
  fst r = Json 200 (success true)
  /\ Order.status <$> Orders (snd r) !! 0%N = Some "confirmed"
  /\ Payments (snd r) !! 0%N
     = Some {| Payment.order := 0; Payment.amount := Some 300;
               Payment.method := "card"; Payment.status := "paid";
               Payment.transactionId := Some "320025" |}.
Proof. vm_compute. repeat split; reflexivity. Qed.

(** ** Claims about a created order *)

Lemma createOrder_never_created user b db :
  code (fst (createOrder user b db)) <> 201.
Proof.
  destruct (createOrder_outcome user b db)
    as [[r [-> [Hr | Hr]]] | [items (_ & _ & _ & ->)]]; simpl; [lia..|done].
Qed.

Lemma createOrder_Payments user b db :
  Payments (snd (createOrder user b db)) = Payments db.
Proof.
  destruct (createOrder_outcome user b db)
    as [[r [-> _]] | [items (_ & _ & _ & ->)]]; done.
Qed.

Lemma dec_all_stock items db id :
  Product.stock <$> dec_all items (Products db) !! id
  = (fun s => s - requested id items) <$> stock_of db id.
Proof.
  unfold stock_of. rewrite dec_all_lookup.
  by destruct (Products db !! id).
Qed.

(** Once the line items have passed the validation and the order document
    the schema, the order is stored as pending with the amount of the
    request, and every stock goes down by the total quantity requested of
    that product. *)
Lemma createOrder_effects user b items db :
  CreateOrderBody.products b = Some items ->
  snd (createOrder user b db) <> db ->
  let db' := snd (createOrder user b db) in
  let o := new_order user b items in
  Orders db' = <[fresh_id (Orders db) := o]> (Orders db)
  /\ Order.status o = "pending"
  /\ Order.totalAmount o = CreateOrderBody.totalAmount b
  /\ forall id, stock_of db' id
               = (fun s => s - requested id items) <$> stock_of db id.
Proof.
  intros Hitems Hchanged.
  destruct (createOrder_outcome user b db)
    as [[r [Hr _]] | [items' (Hitems' & _ & _ & Hr)]].
  - by rewrite Hr in Hchanged.
  - rewrite Hitems in Hitems'. injection Hitems' as <-.
    rewrite Hr. cbn [snd Orders]. repeat split.
    intros id. unfold stock_of at 1. cbn [Products]. apply dec_all_stock.
Qed.

(** C6 at the specification's example, an order for 3 of a product with
    stock 5: the stock becomes 2 and the order is stored as pending, but
    the payment document has the method "pending", which the payment schema
    does not list; its [save()] is refused, no payment exists and the
    answer is 500. *)
Theorem createOrder_stores_no_payment :
  let db := shop 5 in
  let r := createOrder None
             (guest_order [ {| product := 1; quantity := 3 |} ] 300) db in
  fst r = Json 500 (error "Failed to create order")
  /\ stock_of (snd r) 1 = Some 2
  /\ Order.status <$> Orders (snd r) !! 0%N = Some "pending"
  /\ Payments (snd r) = ∅
  /\ Payment.validate
       {| Payment.order := 0; Payment.amount := Some 300;
          Payment.method := "pending"; Payment.status := "pending";
          Payment.transactionId := None |} = false.
Proof. vm_compute. repeat split; reflexivity. Qed.

(** C10 at a request that claims 1 for three vases of price 100: the order
    is stored with the claimed amount, never compared with the 300 the
    lines add up to; the payment built with the same amount is refused for
    its method, as in [createOrder_stores_no_payment]. *)
Theorem createOrder_claimed_amount :
  let db := shop 5 in
  let items := [ {| product := 1; quantity := 3 |} ] in
  let r := createOrder None (guest_order items 1) db in
  items_total (Products db) items = Some 300
  /\ Order.totalAmount <$> Orders (snd r) !! 0%N = Some (Some 1)
  /\ fst r = Json 500 (error "Failed to create order")
  /\ Payments (snd r) = ∅.
Proof. vm_compute. repeat split; reflexivity. Qed.

(** ** Claims about the stock *)

(** C5 at an order that names the same product twice: each line passes
    the check against the stock of 5, both decrements are applied, and the
    stock is -1 in a state reached from an initial one. *)
Theorem createOrder_same_product_twice :
  let db := shop 5 in
  let op := CreateOrder None
              (guest_order [ {| product := 1; quantity := 3 |};
                             {| product := 1; quantity := 3 |} ] 600) in
  let db' := snd (run Number_digits demo_env op db) in
  initial db
  /\ reachable Number_digits demo_env db'
  /\ stock_of db 1 = Some 5
  /\ stock_of db' 1 = Some (-1).
Proof.
  assert (Hinit : initial (shop 5)).
  { repeat split. intros id p Hp. unfold shop in Hp. cbn [Products] in Hp.
    apply lookup_singleton_Some in Hp as [_ <-]. simpl. lia. }
  cbv zeta. split; [exact Hinit|]. split.
  - apply reachable_step, reachable_init, Hinit.
  - vm_compute. split; reflexivity.
Qed.

Lemma requested_notin id items :
  id ∉ map product items -> requested id items = 0.
Proof.
  induction items as [|item rest IH]; simpl; [done|].
  intros Hnotin. apply not_elem_of_cons in Hnotin as [Hne Hrest].
  destruct (N.eqb_spec (product item) id); [congruence | auto].
Qed.

Lemma requested_le_stock db id p items :
  NoDup (map product items) ->
  Forall (fun item => ~ bad_item db item) items ->
  Products db !! id = Some p -> 0 <= Product.stock p ->
  requested id items <= Product.stock p.
Proof.
  intros Hnodup Hall Hp Hpos.
  induction items as [|item rest IH]; simpl; [done|].
  simpl in Hnodup. apply NoDup_cons in Hnodup as [Hnotin Hnodup].
  apply Forall_cons in Hall as [Hitem Hall].
  destruct (N.eqb_spec (product item) id) as [Heq | Hne]; [|auto].
  rewrite Heq in Hnotin. rewrite (requested_notin _ _ Hnotin).
  unfold bad_item in Hitem. rewrite Heq, Hp in Hitem. lia.
Qed.

(** X4: what the validation does guarantee: when no product is named by
    two lines, order creation keeps every stock non-negative. *)
Lemma createOrder_stock_nonneg user b items db :
  CreateOrderBody.products b = Some items ->
  NoDup (map product items) ->
  (forall id s, stock_of db id = Some s -> 0 <= s) ->
  forall id s, stock_of (snd (createOrder user b db)) id = Some s -> 0 <= s.
Proof.
  intros Hitems Hnodup Hdb id s.
  destruct (createOrder_outcome user b db)
    as [[r [-> _]] | [items' (Hitems' & Hall & _ & ->)]]; [apply Hdb|].
  rewrite Hitems in Hitems'. injection Hitems' as <-.
  unfold stock_of at 1. cbn [snd Products]. rewrite dec_all_stock.
  unfold stock_of in *.
  destruct (Products db !! id) as [p|] eqn:Hp; [|done].
  simpl. intros [= <-].
  pose proof (requested_le_stock db id p items Hnodup Hall Hp) as Hle.
  specialize (Hdb id (Product.stock p)). rewrite Hp in Hdb.
  specialize (Hdb eq_refl). lia.
Qed.

(** No other operation writes a stock. *)
Lemma run_Products Number env op db :
  (forall user b, op <> CreateOrder user b) ->
  Products (snd (run Number env op db)) = Products db.
Proof.
  intros Hop. destruct op as [user b | id b | user id | b | b]; simpl.
  - by destruct (Hop user b).
  - pose proof (updateStatus_outcome id b db) as H.
    destruct (StatusBody.status b) as [s|]; [|by rewrite H].
    destruct (negb _); [by rewrite H|].
    destruct (Orders db !! id); [|by rewrite H].
    cbv zeta in H. destruct (Order.validate _); by rewrite H.
  - apply cancelOrder_Products.
  - pose proof (payhere_webhook_outcome Number env b db) as H.
    cbv zeta in H. destruct (negb _); [by rewrite H|].
    destruct (Orders db !! _); [|by rewrite H].
    destruct (negb _); [by rewrite H|].
    destruct (_ && _); by rewrite H.
  - pose proof (confirm_outcome b db) as H. cbv zeta in H.
    destruct (Orders db !! _); [|by rewrite H].
    destruct (String.eqb _ _); [|by rewrite H].
    destruct (Order.validate _); by rewrite H.
Qed.

(** ** Claims about the order of the statuses *)

Lemma fresh_id_None {V} (m : gmap N V) : m !! fresh_id m = None.
Proof. apply not_elem_of_dom, is_fresh. Qed.

(** C8, as the handlers have it: the status changes made by cancellation
    and by order creation follow the order pending, confirmed, shipped,
    delivered, with cancellation from non-terminal statuses only:
    [cancelOrder] changes the status of an order only when it is neither
    cancelled nor delivered, and then to [cancelled]; [createOrder] changes
    no existing order. *)
Theorem checked_operations_keep_status_order Number env op db id o o' :
  keeps_status_order op = true ->
  Orders db !! id = Some o ->
  Orders (snd (run Number env op db)) !! id = Some o' ->
  allowed_transition (Order.status o) (Order.status o').
Proof.
  intros Hop Ho.
  destruct op as [user b | ? ? | user id0 | ? | ?]; try discriminate; simpl.
  - destruct (createOrder_outcome user b db)
      as [[r [-> _]] | [items (_ & _ & _ & ->)]]; cbn [snd Orders].
    + rewrite Ho. intros [= <-]. by left.
    + rewrite lookup_insert_ne.
      * rewrite Ho. intros [= <-]. by left.
      * intros Heq. rewrite <- Heq, fresh_id_None in Ho. done.
  - pose proof (cancelOrder_outcome user id0 db) as H.
    destruct (Orders db !! id0) as [o0|] eqn:Ho0.
    2:{ rewrite H. simpl. rewrite Ho. intros [= <-]. by left. }
    destruct (negb _).
    { rewrite H. simpl. rewrite Ho. intros [= <-]. by left. }
    destruct (terminal (Order.status o0)) eqn:Hterm.
    { destruct H as [e ->]. simpl. rewrite Ho. intros [= <-]. by left. }
    destruct (Order.validate _); rewrite H; cbn [snd with_order Orders].
    2:{ rewrite Ho. intros [= <-]. by left. }
    destruct (decide (id0 = id)) as [-> | Hne].
    + rewrite lookup_insert_eq. intros [= <-].
      rewrite Ho in Ho0. injection Ho0 as <-.
      right. right. by split.
    + rewrite lookup_insert_ne by done. rewrite Ho. intros [= <-]. by left.
Qed.

Lemma checked_operations_keep_status_order_witness :
  let db := shop_with_order 2 "shipped" 3 in
  let db' := snd (run Number_digits demo_env (CancelOrder customer 0) db) in
  Orders db' !! 0%N = Some (order_of "cancelled" 3)
  /\ allowed_transition "shipped" "cancelled".
Proof.
  assert (H : Orders (snd (run Number_digits demo_env (CancelOrder customer 0)
                             (shop_with_order 2 "shipped" 3))) !! 0%N
              = Some (order_of "cancelled" 3)).
  { vm_compute. reflexivity. }
  split; [exact H|].
  exact (checked_operations_keep_status_order Number_digits demo_env
           (CancelOrder customer 0) (shop_with_order 2 "shipped" 3) 0%N
           (order_of "shipped" 3) (order_of "cancelled" 3)
           eq_refl eq_refl H).
Defined.

(** C8 as stated fails: in a state reached by creating an order and
    marking it delivered, the admin's status update moves the order from
    [delivered] back to [pending]. *)
Lemma admin_moves_delivered_order_back :
  let run := run Number_digits demo_env in
  let set s := UpdateStatus 0 {| StatusBody.status := Some s;
                                 StatusBody.trackingInfo := None |} in
  let db1 := snd (run (CreateOrder None
                 (guest_order [ {| product := 1; quantity := 3 |} ] 300))
                 (shop 5)) in
  let db2 := snd (run (set "delivered") db1) in
  let db3 := snd (run (set "pending") db2) in
  reachable Number_digits demo_env db2
  /\ Order.status <$> Orders db2 !! 0%N = Some "delivered"
  /\ Order.status <$> Orders db3 !! 0%N = Some "pending"
  /\ ~ allowed_transition "delivered" "pending".
Proof.
  cbv zeta. split; [|split; [|split]].
  - do 2 apply reachable_step. apply reachable_init.
    repeat split. intros id p Hp. unfold shop in Hp. cbn [Products] in Hp.
    apply lookup_singleton_Some in Hp as [_ <-]. simpl. lia.
  - vm_compute. reflexivity.
  - vm_compute. reflexivity.
  - intros [H | [(i & j & _ & _ & _ & H) | [_ H]]]; discriminate.
Qed.

(** The webhook and the confirmation do not look at the current status
    either: a shipped order and a delivered order become confirmed again. *)
Example webhook_moves_shipped_order_back :
  Order.status <$>
    Orders (snd (payhere_webhook Number_digits demo_env
                   (notification "2" "36827BDD26D1F493AE97936865009596")
                   (shop_with_order 2 "shipped" 3))) !! 0%N
  = Some "confirmed".
Proof. vm_compute. reflexivity. Qed.

Example confirm_moves_delivered_order_back :
  Order.status <$>
    Orders (snd (confirm {| ConfirmBody.orderId := 0;
                            ConfirmBody.paymentId := "320025";
                            ConfirmBody.status := "completed" |}
                   (shop_with_order 2 "delivered" 3))) !! 0%N
  = Some "confirmed".
Proof. vm_compute. reflexivity. Qed.

(** ** Claims about the admin's status update *)

Lemma includes_In l s : includes l s = true <-> In s l.
Proof.
  unfold includes. rewrite existsb_exists. split.
  - intros [x [Hin Heq]]. apply String.eqb_eq in Heq. by subst.
  - intros Hin. exists s. split; [done | apply String.eqb_refl].
Qed.

Lemma validate_updated_order o s t :
  Order.validate o = true -> includes validStatuses s = true ->
  Order.validate (updated_order s t o) = true.
Proof.
  intros Hv Hs. pose proof (validate_set_status o s Hv Hs) as Hv'.
  unfold updated_order. destruct t as [t|]; [|done].
  by destruct (String.eqb s "shipped").
Qed.

(** C9, as the handler has it: the status update turns down, with
    400 "Invalid status" and without writing, exactly the requests whose
    status is not one of pending, confirmed, shipped, delivered, cancelled,
    returned; with one of these six and a stored order it saves the order
    with that status, and with the tracking info of the request when the
    status is [shipped] and tracking info is supplied. *)
Theorem updateStatus_accepts_validStatuses id b db :
  (fst (updateStatus id b db) = Json 400 (error "Invalid status")
   <-> ~ exists s, StatusBody.status b = Some s
               /\ In s ["pending"; "confirmed"; "shipped"; "delivered";
                        "cancelled"; "returned"])
  /\ (fst (updateStatus id b db) = Json 400 (error "Invalid status")
      -> snd (updateStatus id b db) = db)
  /\ (forall s o,
        StatusBody.status b = Some s ->
        In s ["pending"; "confirmed"; "shipped"; "delivered"; "cancelled";
              "returned"] ->
        Orders db !! id = Some o -> Order.validate o = true ->
        exists o',
          updateStatus id b db
          = (Json 200 (order_updated id), with_order id o' db)
          /\ Order.status o' = s
          /\ forall t, s = "shipped" -> StatusBody.trackingInfo b = Some t ->
                       Order.trackingInfo o' = Some t).
Proof.
  pose proof (updateStatus_outcome id b db) as H.
  fold validStatuses.
  destruct (StatusBody.status b) as [s|] eqn:Hs.
  2:{ rewrite H. repeat split; try done. intros _ [s [? _]]. done. }
  destruct (includes validStatuses s) eqn:Hin; cbn [negb] in H.
  2:{ rewrite H. repeat split; try done.
      - intros _ [s' [[= <-] Hs']]. apply includes_In in Hs'. congruence.
      - intros s' o [= <-] Hs'. apply includes_In in Hs'. congruence. }
  assert (Hacc : fst (updateStatus id b db)
                 <> Json 400 (error "Invalid status")).
  { destruct (Orders db !! id); [|by rewrite H].
    cbv zeta in H. destruct (Order.validate _); by rewrite H. }
  split; [split|split].
  - intros Hr. by destruct Hacc.
  - intros Hn. destruct Hn. exists s. split; [done | by apply includes_In].
  - intros Hr. by destruct Hacc.
  - intros s' o [= <-] _ Ho Hv. rewrite Ho in H. cbv zeta in H.
    rewrite (validate_updated_order o s _ Hv Hin) in H.
    eexists. split; [exact H|]. unfold updated_order.
    destruct (StatusBody.trackingInfo b) as [t|]; [|done].
    destruct (String.eqb_spec s "shipped") as [-> | Hne]; simpl.
    + split; [done|]. by intros t' _ [= <-].
    + split; [done|]. intros t' ->. done.
Qed.

Lemma updateStatus_accepts_validStatuses_witness :
  let db := shop_with_order 2 "confirmed" 3 in
  let b := {| StatusBody.status := Some "shipped";
              StatusBody.trackingInfo := Some tracking |} in
  Orders db !! 0%N = Some (order_of "confirmed" 3)
  /\ exists o',
       updateStatus 0 b db = (Json 200 (order_updated 0), with_order 0 o' db)
       /\ Order.status o' = "shipped"
       /\ forall t, "shipped" = "shipped" -> Some tracking = Some t ->
                    Order.trackingInfo o' = Some t.
Proof.
  split; [reflexivity|].
  apply (proj2 (proj2 (updateStatus_accepts_validStatuses 0
           {| StatusBody.status := Some "shipped";
              StatusBody.trackingInfo := Some tracking |}
           (shop_with_order 2 "confirmed" 3)))
         "shipped" (order_of "confirmed" 3)).
  - reflexivity.
  - simpl. tauto.
  - reflexivity.
  - reflexivity.
Defined.

(** C9 as stated fails: [payment_failed] is in the enumeration of the
    specification but not among the statuses the update takes. *)
Lemma updateStatus_rejects_payment_failed :
  let db := shop_with_order 2 "pending" 3 in
  In "payment_failed" spec_status_enum
  /\ updateStatus 0 {| StatusBody.status := Some "payment_failed";
                       StatusBody.trackingInfo := None |} db
     = (Json 400 (error "Invalid status"), db).
Proof. split; [simpl; tauto | vm_compute; reflexivity]. Qed.

Example updateStatus_attaches_tracking :
  Orders (snd (updateStatus 0
                 {| StatusBody.status := Some "shipped";
                    StatusBody.trackingInfo := Some tracking |}
                 (shop_with_order 2 "confirmed" 3))) !! 0%N
  = Some (Order.set_trackingInfo tracking (order_of "shipped" 3)).
Proof. vm_compute. reflexivity. Qed.

(** ** Stored orders stay valid *)

Lemma orders_valid_with_order id o db :
  orders_valid db -> Order.validate o = true ->
  orders_valid (with_order id o db).
Proof.
  intros Hdb Ho id' o'. unfold with_order. cbn [Orders].
  destruct (decide (id = id')) as [-> | Hne].
  - rewrite lookup_insert_eq. by intros [= <-].
  - rewrite lookup_insert_ne by done. apply Hdb.
Qed.

Lemma run_orders_valid Number env op db :
  orders_valid db -> orders_valid (snd (run Number env op db)).
Proof.
  intros Hdb. destruct op as [user b | id b | user id | b | b]; simpl.
  - destruct (createOrder_outcome user b db)
      as [[r [-> _]] | [items (_ & _ & Hv & ->)]]; [done|].
    by apply (orders_valid_with_order _ _
                {| Products := dec_all items (Products db);
                   Orders := Orders db; Payments := Payments db |}).
  - pose proof (updateStatus_outcome id b db) as H.
    destruct (StatusBody.status b) as [s|]; [|by rewrite H].
    destruct (negb _); [by rewrite H|].
    destruct (Orders db !! id); [|by rewrite H].
    cbv zeta in H. destruct (Order.validate _) eqn:Hv; rewrite H; [|done].
    by apply orders_valid_with_order.
  - pose proof (cancelOrder_outcome user id db) as H.
    destruct (Orders db !! id) as [o|]; [|by rewrite H].
    destruct (negb _); [by rewrite H|].
    destruct (terminal _); [by destruct H as [e ->]|].
    destruct (Order.validate _) eqn:Hv; rewrite H; [|done].
    by apply orders_valid_with_order.
  - pose proof (payhere_webhook_outcome Number env b db) as H.
    cbv zeta in H. destruct (negb _); [by rewrite H|].
    destruct (Orders db !! _); [|by rewrite H].
    destruct (negb _); [by rewrite H|].
    destruct (_ && _) eqn:Hv; rewrite H; [|done].
    apply andb_true_iff in Hv as [_ Hv].
    by apply (orders_valid_with_order _ _ (with_payment _ _ db)).
  - pose proof (confirm_outcome b db) as H. cbv zeta in H.
    destruct (Orders db !! _); [|by rewrite H].
    destruct (String.eqb _ _); [|by rewrite H].
    destruct (Order.validate _) eqn:Hv; rewrite H; [|done].
    by apply orders_valid_with_order.
Qed.

(** In every reachable state the stored orders pass the schema; in
    particular none has the status [payment_failed]. *)
Lemma reachable_orders_valid Number env db :
  reachable Number env db -> orders_valid db.
Proof.
  induction 1 as [db (Horders & _ & _) | db op _ IH].
  - intros id o. by rewrite Horders, lookup_empty.
  - by apply run_orders_valid.
Qed.

Lemma reachable_never_payment_failed Number env db id o :
  reachable Number env db -> Orders db !! id = Some o ->
  Order.status o <> "payment_failed".
Proof.
  intros Hreach Ho Hs.
  pose proof (reachable_orders_valid _ _ _ Hreach id o Ho) as Hv.
  unfold Order.validate in Hv. rewrite Hs in Hv.
  destruct (Order.totalAmount o); discriminate.
Qed.

(** * Further properties of the handlers *)

(** ** The shape of a signature *)

Lemma le_bytes_length n x : length (MD5.le_bytes n x) = n.
Proof. revert x. induction n as [|n IH]; intros x; simpl; [done|]. by rewrite IH. Qed.

Lemma le_bytes_range n x : Forall (fun b => 0 <= b < 256) (MD5.le_bytes n x).
Proof.
  revert x. induction n as [|n IH]; intros x; simpl; constructor; [|apply IH].
  apply Z.mod_pos_bound. lia.
Qed.

Lemma digest_length msg : length (MD5.digest msg) = 16%nat.
Proof.
  unfold MD5.digest.
  destruct (fold_left _ _ _) as [[[a b] c] d].
  by rewrite !length_app, !le_bytes_length.
Qed.

Lemma digest_range msg : Forall (fun b => 0 <= b < 256) (MD5.digest msg).
Proof.
  unfold MD5.digest.
  destruct (fold_left _ _ _) as [[[a b] c] d].
  repeat apply Forall_app_2; apply le_bytes_range.
Qed.

Lemma hex_of_bytes_length bs :
  String.length (MD5.hex_of_bytes bs) = (2 * length bs)%nat.
Proof. induction bs as [|b bs IH]; simpl; [done|]. rewrite IH. lia. Qed.

Lemma toUpperCase_length s : String.length (toUpperCase s) = String.length s.
Proof. induction s as [|c s IH]; simpl; [done|]. by rewrite IH. Qed.

Lemma upper_hex_digit n :
  0 <= n < 16 -> is_upper_hex (upper_ascii (MD5.hex_digit n)) = true.
Proof.
  intros Hn.
  assert (Hall : forallb (fun k => is_upper_hex
                            (upper_ascii (MD5.hex_digit (Z.of_nat k))))
                   (seq 0 16) = true) by (vm_compute; reflexivity).
  rewrite List.forallb_forall in Hall.
  specialize (Hall (Z.to_nat n)). rewrite Z2Nat.id in Hall by lia.
  apply Hall, List.in_seq. lia.
Qed.

Lemma upper_hex_of_bytes bs :
  Forall (fun b => 0 <= b < 256) bs ->
  upper_hex_string (toUpperCase (MD5.hex_of_bytes bs)) = true.
Proof.
  unfold upper_hex_string.
  induction 1 as [|b bs Hb _ IH]; [done|].
  cbn [MD5.hex_of_bytes toUpperCase list_ascii_of_string forallb].
  rewrite IH, !upper_hex_digit; [done| |].
  - apply Z.mod_pos_bound. lia.
  - split; [apply Z.div_pos; lia | apply Z.div_lt_upper_bound; lia].
Qed.

(** An uppercase digest is 32 uppercase hexadecimal digits. *)
Lemma signature_shape s :
  String.length (toUpperCase (MD5.md5_hex s)) = 32%nat
  /\ upper_hex_string (toUpperCase (MD5.md5_hex s)) = true.
Proof.
  unfold MD5.md5_hex. split.
  - by rewrite toUpperCase_length, hex_of_bytes_length, digest_length.
  - apply upper_hex_of_bytes, digest_range.
Qed.

(** X1: a notification whose [md5sig] is not 32 characters long, or has a
    character that is no uppercase hexadecimal digit, is turned down with
    400 "Invalid signature" and nothing is written, whatever the secret. *)
Theorem webhook_rejects_malformed_signature Number env b db :
  String.length (WebhookBody.md5sig b) <> 32%nat
  \/ upper_hex_string (WebhookBody.md5sig b) = false ->
  payhere_webhook Number env b db
  = (Json 400 (error "Invalid signature"), db).
Proof.
  intros Hshape.
  pose proof (payhere_webhook_outcome Number env b db) as H. cbv zeta in H.
  destruct (String.eqb_spec (WebhookBody.md5sig b) (expectedMd5sig env b))
    as [Heq | Hne]; [|exact H].
  exfalso. rewrite Heq in Hshape. unfold expectedMd5sig in Hshape.
  destruct (signature_shape
    (WebhookBody.merchant_id b ++ WebhookBody.order_id b
     ++ WebhookBody.payhere_amount b ++ WebhookBody.payhere_currency b
     ++ WebhookBody.status_code b
     ++ toUpperCase (MD5.md5_hex (default "" (PAYHERE_SECRET_KEY env))))%string)
    as [Hlen Hhex].
  destruct Hshape as [Hl | Hh]; [by apply Hl | by rewrite Hhex in Hh].
Qed.

Lemma webhook_rejects_malformed_signature_witness :
  let b := notification "2" "36827bdd26d1f493ae97936865009596" in
  upper_hex_string (WebhookBody.md5sig b) = false
  /\ payhere_webhook Number_digits demo_env b (shop_with_order 2 "pending" 3)
     = (Json 400 (error "Invalid signature"), shop_with_order 2 "pending" 3).
Proof.
  split; [reflexivity|].
  apply (webhook_rejects_malformed_signature Number_digits demo_env
           (notification "2" "36827bdd26d1f493ae97936865009596")).
  right. reflexivity.
Defined.

(** ** The checkout hash *)


(** ** Order creation *)

(** X3: when order creation stores an order, the order is pending, has
    the lines and the amount of the request and a fresh identifier, and
    the stock of every product goes down by exactly the total quantity
    the lines request of it. *)
Theorem createOrder_stores_exact_decrement user b items db :
  CreateOrderBody.products b = Some items ->
  snd (createOrder user b db) <> db ->
  let db' := snd (createOrder user b db) in
  Orders db !! fresh_id (Orders db) = None
  /\ Orders db' !! fresh_id (Orders db) = Some (new_order user b items)
  /\ Order.status (new_order user b items) = "pending"
  /\ Order.products (new_order user b items) = items
  /\ Order.totalAmount (new_order user b items)
     = CreateOrderBody.totalAmount b
  /\ forall id, stock_of db' id
               = (fun s => s - requested id items) <$> stock_of db id.
Proof.
  intros Hitems Hchanged.
  destruct (createOrder_effects user b items db Hitems Hchanged)
    as (Horders & _ & _ & Hstock).
  cbv zeta. rewrite Horders, fresh_id_None, lookup_insert_eq. done.
Qed.

Lemma createOrder_stores_exact_decrement_witness :
  let items := [ {| product := 1; quantity := 2 |};
                 {| product := 1; quantity := 1 |} ] in
  let db' := snd (createOrder (Some customer) (guest_order items 300)
                    (shop 5)) in
  db' <> shop 5
  /\ Orders db' !! fresh_id (Orders (shop 5))
     = Some (new_order (Some customer) (guest_order items 300) items)
  /\ stock_of db' 1 = (fun s => s - requested 1 items) <$> stock_of (shop 5) 1.
Proof.
  assert (Hne : snd (createOrder (Some customer)
                       (guest_order [ {| product := 1; quantity := 2 |};
                                      {| product := 1; quantity := 1 |} ] 300)
                       (shop 5)) <> shop 5).
  { intros Heq. apply (f_equal (fun d => stock_of d 1)) in Heq.
    vm_compute in Heq. discriminate. }
  pose proof (createOrder_stores_exact_decrement (Some customer)
                (guest_order [ {| product := 1; quantity := 2 |};
                               {| product := 1; quantity := 1 |} ] 300)
                _ (shop 5) eq_refl Hne) as H.
  cbv zeta in *. destruct H as (_ & Ho & _ & _ & _ & Hs).
  split; [exact Hne|]. split; [exact Ho | exact (Hs 1%N)].
Defined.

Lemma shop_stock_nonneg n :
  0 <= n -> forall id s, stock_of (shop n) id = Some s -> 0 <= s.
Proof.
  intros Hn id s. unfold stock_of, shop. cbn [Products].
  destruct (decide (id = 1%N)) as [-> | Hne].
  - rewrite lookup_singleton_eq. simpl. by intros [= <-].
  - by rewrite lookup_singleton_ne.
Qed.

Lemma createOrder_stock_nonneg_witness :
  let items := [ {| product := 1; quantity := 5 |} ] in
  NoDup (map product items)
  /\ stock_of (snd (createOrder None (guest_order items 500) (shop 5))) 1
     = Some 0
  /\ 0 <= 0.
Proof.
  assert (Hnodup : NoDup (map product [ {| product := 1; quantity := 5 |} ])).
  { apply NoDup_singleton. }
  assert (Hs : stock_of (snd (createOrder None
                 (guest_order [ {| product := 1; quantity := 5 |} ] 500)
                 (shop 5))) 1 = Some 0).
  { vm_compute. reflexivity. }
  split; [exact Hnodup|]. split; [exact Hs|].
  exact (createOrder_stock_nonneg None
           (guest_order [ {| product := 1; quantity := 5 |} ] 500) _ (shop 5)
           eq_refl Hnodup (shop_stock_nonneg 5 ltac:(lia)) 1%N 0 Hs).
Defined.

(** X5: a request without [totalAmount] writes nothing: the order
    document is refused by the schema before any stock is touched. *)
Theorem createOrder_without_amount user b db :
  CreateOrderBody.totalAmount b = None ->
  snd (createOrder user b db) = db
  /\ (code (fst (createOrder user b db)) = 400
      \/ code (fst (createOrder user b db)) = 500).
Proof.
  intros Hamount.
  destruct (createOrder_outcome user b db)
    as [[r [-> Hr]] | [items (_ & _ & Hv & _)]]; [done|].
  unfold Order.validate, new_order in Hv. cbn in Hv.
  by rewrite Hamount in Hv.
Qed.

Lemma createOrder_without_amount_witness :
  let b := {| CreateOrderBody.products := Some [ {| product := 1; quantity := 3 |} ];
              CreateOrderBody.shippingAddress := Some "12 Galle Road, Colombo";
              CreateOrderBody.customerName := Some "Nimal";
              CreateOrderBody.customerEmail := Some "nimal@example.com";
              CreateOrderBody.customerPhone := Some "0771234567";
              CreateOrderBody.totalAmount := None |} in
  createOrder None b (shop 5)
  = (Json 500 (error "Failed to create order"), shop 5).
Proof.
  cbv zeta.
  pose proof (createOrder_without_amount None
    {| CreateOrderBody.products := Some [ {| product := 1; quantity := 3 |} ];
       CreateOrderBody.shippingAddress := Some "12 Galle Road, Colombo";
       CreateOrderBody.customerName := Some "Nimal";
       CreateOrderBody.customerEmail := Some "nimal@example.com";
       CreateOrderBody.customerPhone := Some "0771234567";
       CreateOrderBody.totalAmount := None |} (shop 5) eq_refl) as [Hdb _].
  rewrite (surjective_pairing (createOrder _ _ _)), Hdb.
  f_equal.
Defined.

(** X6: order creation adds at most one order and nothing else: every
    order stored before is stored unchanged afterwards, and the payments
    are what they were. *)
Theorem createOrder_keeps_orders_and_payments user b db :
  (forall id o, Orders db !! id = Some o ->
                Orders (snd (createOrder user b db)) !! id = Some o)
  /\ Payments (snd (createOrder user b db)) = Payments db.
Proof.
  split; [|apply createOrder_Payments].
  intros id o Ho.
  destruct (createOrder_outcome user b db)
    as [[r [-> _]] | [items (_ & _ & _ & ->)]]; cbn [snd Orders]; [done|].
  rewrite lookup_insert_ne; [done|].
  intros Heq. by rewrite <- Heq, fresh_id_None in Ho.
Qed.

(** ** Cancellation *)

(** X7: a cancellation that goes through changes the status of that one
    order and nothing else: the caller may cancel, the order is neither
    cancelled nor delivered; products, payments, the other orders and the
    order's lines, amount, owner and address stay. *)
Theorem cancelOrder_success user id db o :
  Orders db !! id = Some o ->
  Order.validate o = true ->
  may_cancel user o = true ->
  terminal (Order.status o) = false ->
  cancelOrder user id db
  = (Json 200 (message "Order cancelled successfully"),
     {| Products := Products db;
        Orders := <[id := Order.set_status "cancelled" o]> (Orders db);
        Payments := Payments db |}).
Proof.
  intros Ho Hv Hmay Hterm.
  pose proof (cancelOrder_outcome user id db) as H.
  rewrite Ho, Hmay, Hterm in H. cbn [negb] in H.
  by rewrite (validate_set_status o "cancelled" Hv) in H.
Qed.

Lemma cancelOrder_success_witness :
  let db := shop_with_order 2 "pending" 3 in
  may_cancel customer (order_of "pending" 3) = true
  /\ cancelOrder customer 0 db
     = (Json 200 (message "Order cancelled successfully"),
        {| Products := Products db;
           Orders := <[0%N := Order.set_status "cancelled"
                                (order_of "pending" 3)]> (Orders db);
           Payments := Payments db |}).
Proof.
  split; [reflexivity|].
  exact (cancelOrder_success customer 0 (shop_with_order 2 "pending" 3)
           (order_of "pending" 3) eq_refl eq_refl eq_refl eq_refl).
Defined.

(** X8: an order without owner, as a guest's order is, can be cancelled
    by every authenticated user. *)
Theorem cancel_guest_order_by_anyone user id db o :
  Orders db !! id = Some o ->
  Order.user o = None ->
  Order.validate o = true ->
  terminal (Order.status o) = false ->
  fst (cancelOrder user id db)
  = Json 200 (message "Order cancelled successfully")
  /\ Order.status <$> Orders (snd (cancelOrder user id db)) !! id
     = Some "cancelled".
Proof.
  intros Ho Howner Hv Hterm.
  assert (Hmay : may_cancel user o = true).
  { unfold may_cancel. rewrite Howner. apply orb_true_r. }
  pose proof (cancelOrder_outcome user id db) as H.
  rewrite Ho, Hmay, Hterm in H. cbn [negb] in H.
  rewrite (validate_set_status o "cancelled" Hv) in H by reflexivity.
  rewrite H. cbn [fst snd with_order Orders].
  by rewrite lookup_insert_eq.
Qed.

Lemma cancel_guest_order_by_anyone_witness :
  let db := shop_with_guest_order 2 "confirmed" 3 in
  Orders db !! 0%N = Some (guest_order_of "confirmed" 3)
  /\ fst (cancelOrder stranger 0 db)
     = Json 200 (message "Order cancelled successfully")
  /\ Order.status <$> Orders (snd (cancelOrder stranger 0 db)) !! 0%N
     = Some "cancelled".
Proof.
  split; [reflexivity|].
  exact (cancel_guest_order_by_anyone stranger 0
           (shop_with_guest_order 2 "confirmed" 3)
           (guest_order_of "confirmed" 3) eq_refl eq_refl eq_refl eq_refl).
Defined.

(** X9: after a cancellation that went through, every further
    cancellation of the order, by whomever, is refused with 400 or 403 and
    writes nothing. *)
Theorem cancelOrder_twice user user' id db :
  code (fst (cancelOrder user id db)) = 200 ->
  let db' := snd (cancelOrder user id db) in
  exists c e,
    cancelOrder user' id db' = (Json c (error e), db')
    /\ (c = 400 \/ c = 403).
Proof.
  intros Hcode. cbv zeta.
  pose proof (cancelOrder_outcome user id db) as H.
  destruct (Orders db !! id) as [o|]; [|by rewrite H in Hcode].
  destruct (negb _); [by rewrite H in Hcode|].
  destruct (terminal _); [by destruct H as [e H]; rewrite H in Hcode|].
  destruct (Order.validate _); [|by rewrite H in Hcode].
  rewrite H. cbn [snd].
  pose proof (cancelOrder_outcome user' id
                (with_order id (Order.set_status "cancelled" o) db)) as H'.
  unfold with_order in H' at 1. cbn [Orders] in H'.
  rewrite lookup_insert_eq in H'.
  destruct (negb _); [eauto 6|].
  cbn in H'. destruct H' as [e H']. eauto 6.
Qed.

Lemma cancelOrder_twice_witness :
  let db := shop_with_order 2 "pending" 3 in
  let db' := snd (cancelOrder customer 0 db) in
  code (fst (cancelOrder customer 0 db)) = 200
  /\ exists c e, cancelOrder admin 0 db' = (Json c (error e), db')
                 /\ (c = 400 \/ c = 403).
Proof.
  split; [reflexivity|].
  exact (cancelOrder_twice customer admin 0 (shop_with_order 2 "pending" 3)
           eq_refl).
Defined.

(** ** Writes and answers *)

(** X10: status update, cancellation and payment confirmation write only
    when they answer 200: any other answer (400, 403, 404, 500) means the
    database is what it was. *)
Theorem error_answer_writes_nothing Number env op db :
  single_write op = true ->
  code (fst (run Number env op db)) <> 200 ->
  snd (run Number env op db) = db.
Proof.
  intros Hop.
  destruct op as [? ? | id b | user id | ? | b]; try discriminate; simpl.
  - pose proof (updateStatus_outcome id b db) as H.
    destruct (StatusBody.status b) as [s|]; [|by rewrite H].
    destruct (negb _); [by rewrite H|].
    destruct (Orders db !! id); [|by rewrite H].
    cbv zeta in H. destruct (Order.validate _); rewrite H; done.
  - pose proof (cancelOrder_outcome user id db) as H.
    destruct (Orders db !! id) as [o|]; [|by rewrite H].
    destruct (negb _); [by rewrite H|].
    destruct (terminal _); [by destruct H as [e ->]|].
    destruct (Order.validate _); rewrite H; done.
  - pose proof (confirm_outcome b db) as H. cbv zeta in H.
    destruct (Orders db !! _); [|by rewrite H].
    destruct (String.eqb _ _); [|by rewrite H].
    destruct (Order.validate _); rewrite H; done.
Qed.

Lemma error_answer_writes_nothing_witness :
  let op := CancelOrder stranger 0 in
  let db := shop_with_order 2 "pending" 3 in
  code (fst (run Number_digits demo_env op db)) <> 200
  /\ snd (run Number_digits demo_env op db) = db.
Proof.
  assert (Hc : code (fst (run Number_digits demo_env (CancelOrder stranger 0)
                            (shop_with_order 2 "pending" 3))) <> 200).
  { vm_compute. discriminate. }
  split; [exact Hc|].
  exact (error_answer_writes_nothing Number_digits demo_env
           (CancelOrder stranger 0) (shop_with_order 2 "pending" 3)
           eq_refl Hc).
Defined.

(** ** Status update and confirmation *)

Lemma updated_order_idem s t o :
  updated_order s t (updated_order s t o) = updated_order s t o.
Proof.
  unfold updated_order. destruct t as [t|]; [|done].
  by destruct (String.eqb s "shipped").
Qed.

Lemma with_order_with_order id o db :
  with_order id o (with_order id o db) = with_order id o db.
Proof. unfold with_order. cbn [Products Orders Payments]. by rewrite insert_insert_eq. Qed.

(** X11: the status update is idempotent: sending the same request a
    second time changes nothing more. *)
Theorem updateStatus_idempotent id b db :
  snd (updateStatus id b (snd (updateStatus id b db)))
  = snd (updateStatus id b db).
Proof.
  pose proof (updateStatus_outcome id b db) as H.
  destruct (StatusBody.status b) as [s|] eqn:Hs; [|rewrite H; cbn [snd]; by rewrite H].
  destruct (negb (includes validStatuses s)) eqn:Hin; [rewrite H; cbn [snd]; by rewrite H|].
  destruct (Orders db !! id) as [o|] eqn:Ho; [|rewrite H; cbn [snd]; by rewrite H].
  cbv zeta in H.
  destruct (Order.validate (updated_order s _ o)) eqn:Hv; rewrite H;
    [|cbn [snd]; by rewrite H].
  cbn [snd].
  pose proof (updateStatus_outcome id b
    (with_order id (updated_order s (StatusBody.trackingInfo b) o) db)) as H'.
  rewrite Hs, Hin in H'. unfold with_order in H' at 1. cbn [Orders] in H'.
  rewrite lookup_insert_eq in H'. cbv zeta in H'.
  rewrite updated_order_idem, Hv in H'. rewrite H'. cbn [snd].
  apply with_order_with_order.
Qed.

(** X12: tracking info sent along with a status other than [shipped] is
    not stored: the order keeps the tracking info it had. *)
Theorem updateStatus_ignores_tracking id b db s o o' :
  StatusBody.status b = Some s -> s <> "shipped" ->
  Orders db !! id = Some o ->
  Orders (snd (updateStatus id b db)) !! id = Some o' ->
  Order.trackingInfo o' = Order.trackingInfo o.
Proof.
  intros Hs Hne Ho.
  pose proof (updateStatus_outcome id b db) as H. rewrite Hs, Ho in H.
  destruct (negb _).
  { rewrite H. cbn [snd]. rewrite Ho. by intros [= <-]. }
  cbv zeta in H. destruct (Order.validate _); rewrite H; cbn [snd].
  2:{ rewrite Ho. by intros [= <-]. }
  unfold with_order. cbn [Orders]. rewrite lookup_insert_eq. intros [= <-].
  unfold updated_order. destruct (StatusBody.trackingInfo b); [|done].
  apply String.eqb_neq in Hne. by rewrite Hne.
Qed.

Lemma updateStatus_ignores_tracking_witness :
  let b := {| StatusBody.status := Some "delivered";
              StatusBody.trackingInfo := Some tracking |} in
  let db := shop_with_order 2 "shipped" 3 in
  Orders (snd (updateStatus 0 b db)) !! 0%N = Some (order_of "delivered" 3)
  /\ Order.trackingInfo (order_of "delivered" 3)
     = Order.trackingInfo (order_of "shipped" 3).
Proof.
  assert (H : Orders (snd (updateStatus 0
                {| StatusBody.status := Some "delivered";
                   StatusBody.trackingInfo := Some tracking |}
                (shop_with_order 2 "shipped" 3))) !! 0%N
              = Some (order_of "delivered" 3)).
  { vm_compute. reflexivity. }
  split; [exact H|].
  refine (updateStatus_ignores_tracking 0
            {| StatusBody.status := Some "delivered";
               StatusBody.trackingInfo := Some tracking |}
            (shop_with_order 2 "shipped" 3)
            "delivered" (order_of "shipped" 3) (order_of "delivered" 3)
            eq_refl _ eq_refl H).
  discriminate.
Defined.

(** X13: the confirmation endpoint checks neither a signature nor the
    current status: a request with status "completed" naming a stored
    order makes it confirmed, from any status, and no payment record is
    written; with any other status nothing is written. *)
Theorem confirm_from_any_status b db o :
  Orders db !! ConfirmBody.orderId b = Some o ->
  Order.validate o = true ->
  confirm b db
  = if String.eqb (ConfirmBody.status b) "completed" then
      (Json 200 (success true),
       {| Products := Products db;
          Orders := <[ConfirmBody.orderId b :=
                        Order.set_status "confirmed" o]> (Orders db);
          Payments := Payments db |})
    else (Json 200 (success false), db).
Proof.
  intros Ho Hv. pose proof (confirm_outcome b db) as H. cbv zeta in H.
  rewrite Ho in H. destruct (String.eqb _ _); [|done].
  by rewrite (validate_set_status o "confirmed" Hv) in H.
Qed.

Lemma confirm_from_any_status_witness :
  let b := {| ConfirmBody.orderId := 0; ConfirmBody.paymentId := "320025";
              ConfirmBody.status := "completed" |} in
  let db := shop_with_order 2 "cancelled" 3 in
  Orders db !! 0%N = Some (order_of "cancelled" 3)
  /\ confirm b db
     = (Json 200 (success true),
        {| Products := Products db;
           Orders := <[0%N := Order.set_status "confirmed"
                                (order_of "cancelled" 3)]> (Orders db);
           Payments := Payments db |}).
Proof.
  split; [reflexivity|].
  exact (confirm_from_any_status
           {| ConfirmBody.orderId := 0; ConfirmBody.paymentId := "320025";
              ConfirmBody.status := "completed" |}
           (shop_with_order 2 "cancelled" 3) (order_of "cancelled" 3)
           eq_refl eq_refl).
Defined.

(** ** The webhook's payments *)

Lemma payhere_webhook_accepted Number env b db o a :
  WebhookBody.md5sig b = expectedMd5sig env b ->
  Orders db !! WebhookBody.custom_1 b = Some o ->
  Number (WebhookBody.payhere_amount b) = Some a ->
  Payments (snd (payhere_webhook Number env b db))
  = <[fresh_id (Payments db) := webhook_payment Number b]> (Payments db)
  /\ Payment.validate (webhook_payment Number b) = true.
Proof.
  intros Hsig Ho Ha.
  pose proof (payhere_webhook_outcome Number env b db) as H. cbv zeta in H.
  rewrite Hsig, String.eqb_refl, Ho in H. cbn [negb] in H.
  assert (Hv : Payment.validate (webhook_payment Number b) = true).
  { unfold Payment.validate, webhook_payment. cbn. rewrite Ha.
    by destruct (String.eqb _ "2"). }
  rewrite Hv in H. cbn [negb] in H.
  split; [|done]. destruct (_ && _); by rewrite H.
Qed.

(** X14: every notification that passes the signature check, names a
    stored order and has a numeric amount stores one more payment record,
    whatever its status code and whatever was stored before: delivering
    the same notification again adds a second record for the same gateway
    payment id. *)
Theorem webhook_stores_one_more_payment Number env b db o a :
  WebhookBody.md5sig b = expectedMd5sig env b ->
  Orders db !! WebhookBody.custom_1 b = Some o ->
  Number (WebhookBody.payhere_amount b) = Some a ->
  let db' := snd (payhere_webhook Number env b db) in
  size (Payments db') = S (size (Payments db))
  /\ Payments db' !! fresh_id (Payments db)
     = Some {| Payment.order := WebhookBody.custom_1 b;
               Payment.amount := Some a;
               Payment.method := "card";
               Payment.status :=
                 if String.eqb (WebhookBody.status_code b) "2"
                 then "paid" else "failed";
               Payment.transactionId := Some (WebhookBody.payment_id b) |}
  /\ forall id p, Payments db !! id = Some p -> Payments db' !! id = Some p.
Proof.
  intros Hsig Ho Ha. cbv zeta.
  destruct (payhere_webhook_accepted Number env b db o a Hsig Ho Ha)
    as [-> _].
  split; [|split].
  - apply map_size_insert_None, fresh_id_None.
  - rewrite lookup_insert_eq. unfold webhook_payment. by rewrite Ha.
  - intros id p Hp. rewrite lookup_insert_ne; [done|].
    intros Heq. by rewrite <- Heq, fresh_id_None in Hp.
Qed.

Lemma webhook_stores_one_more_payment_witness :
  let b := notification "2" "36827BDD26D1F493AE97936865009596" in
  let db := snd (payhere_webhook Number_digits demo_env b
                   (shop_with_order 2 "pending" 3)) in
  let db' := snd (payhere_webhook Number_digits demo_env b db) in
  Orders db !! 0%N = Some (order_of "confirmed" 3)
  /\ size (Payments db) = 1%nat
  /\ size (Payments db') = 2%nat.
Proof.
  assert (Ho : Orders (snd (payhere_webhook Number_digits demo_env
                 (notification "2" "36827BDD26D1F493AE97936865009596")
                 (shop_with_order 2 "pending" 3))) !! 0%N
               = Some (order_of "confirmed" 3)).
  { vm_compute. reflexivity. }
  pose proof (webhook_stores_one_more_payment Number_digits demo_env
    (notification "2" "36827BDD26D1F493AE97936865009596")
    (snd (payhere_webhook Number_digits demo_env
            (notification "2" "36827BDD26D1F493AE97936865009596")
            (shop_with_order 2 "pending" 3)))
    (order_of "confirmed" 3) 300 eq_refl Ho eq_refl) as [Hsize _].
  split; [exact Ho|]. split; [vm_compute; reflexivity|].
  exact Hsize.
Defined.

(** X15: a signed notification that names no stored order is answered
    404, and one whose amount is not a number 500; in both cases nothing
    is written. *)
Theorem webhook_unknown_order_or_amount Number env b db :
  WebhookBody.md5sig b = expectedMd5sig env b ->
  Orders db !! WebhookBody.custom_1 b = None
  \/ Number (WebhookBody.payhere_amount b) = None ->
  snd (payhere_webhook Number env b db) = db
  /\ fst (payhere_webhook Number env b db)
     = match Orders db !! WebhookBody.custom_1 b with
       | None => Json 404 (error "Order not found")
       | Some _ => Json 500 (error "Webhook processing failed")
       end.
Proof.
  intros Hsig Hcase.
  pose proof (payhere_webhook_outcome Number env b db) as H. cbv zeta in H.
  rewrite Hsig, String.eqb_refl in H. cbn [negb] in H.
  destruct (Orders db !! WebhookBody.custom_1 b) as [o|]; [|by rewrite H].
  destruct Hcase as [?|Ha]; [done|].
  assert (Hv : Payment.validate (webhook_payment Number b) = false).
  { unfold Payment.validate, webhook_payment. cbn. by rewrite Ha. }
  rewrite Hv in H. by rewrite H.
Qed.

Lemma webhook_unknown_order_or_amount_witness :
  let b := notification "2" "36827BDD26D1F493AE97936865009596" in
  Orders (shop 5) !! WebhookBody.custom_1 b = None
  /\ snd (payhere_webhook Number_digits demo_env b (shop 5)) = shop 5
  /\ fst (payhere_webhook Number_digits demo_env b (shop 5))
     = Json 404 (error "Order not found").
Proof.
  split; [reflexivity|].
  exact (webhook_unknown_order_or_amount Number_digits demo_env
           (notification "2" "36827BDD26D1F493AE97936865009596") (shop 5)
           eq_refl (or_introl eq_refl)).
Defined.

(** ** What no sequence of requests changes *)

Lemma same_order_refl o : same_order o o.
Proof. by repeat split. Qed.

Lemma same_order_trans o1 o2 o3 :
  same_order o1 o2 -> same_order o2 o3 -> same_order o1 o3.
Proof.
  intros (? & ? & ? & ?) (? & ? & ? & ?). repeat split; congruence.
Qed.

Lemma same_order_set_status s o : same_order o (Order.set_status s o).
Proof. by repeat split. Qed.

Lemma same_order_updated s t o : same_order o (updated_order s t o).
Proof.
  unfold updated_order. destruct t as [t|]; [|by repeat split].
  by destruct (String.eqb s "shipped"); repeat split.
Qed.

Lemma with_order_kept db id0 o0 o0' id o :
  Orders db !! id0 = Some o0 -> same_order o0 o0' ->
  Orders db !! id = Some o ->
  exists o', Orders (with_order id0 o0' db) !! id = Some o' /\ same_order o o'.
Proof.
  intros Ho0 Hsame Ho. unfold with_order. cbn [Orders].
  destruct (decide (id0 = id)) as [-> | Hne].
  - rewrite lookup_insert_eq. exists o0'. split; [done|]. congruence.
  - rewrite lookup_insert_ne by done. exists o. split; [done|].
    apply same_order_refl.
Qed.

(** One request keeps every stored order, up to status and tracking. *)
Lemma run_order_kept Number env op db id o :
  Orders db !! id = Some o ->
  exists o', Orders (snd (run Number env op db)) !! id = Some o'
             /\ same_order o o'.
Proof.
  intros Ho.
  assert (Hsame : exists o', Orders db !! id = Some o' /\ same_order o o').
  { exists o. split; [done | apply same_order_refl]. }
  destruct op as [user b | id0 b | user id0 | b | b]; simpl.
  - destruct (createOrder_outcome user b db)
      as [[r [-> _]] | [items (_ & _ & _ & ->)]]; cbn [snd Orders]; [done|].
    rewrite lookup_insert_ne; [done|].
    intros Heq. by rewrite <- Heq, fresh_id_None in Ho.
  - pose proof (updateStatus_outcome id0 b db) as H.
    destruct (StatusBody.status b) as [s|]; [|by rewrite H].
    destruct (negb _); [by rewrite H|].
    destruct (Orders db !! id0) as [o0|] eqn:Ho0; [|by rewrite H].
    cbv zeta in H. destruct (Order.validate _); rewrite H; [|done].
    cbn [snd]. eapply with_order_kept; eauto using same_order_updated.
  - pose proof (cancelOrder_outcome user id0 db) as H.
    destruct (Orders db !! id0) as [o0|] eqn:Ho0; [|by rewrite H].
    destruct (negb _); [by rewrite H|].
    destruct (terminal _); [by destruct H as [e ->]|].
    destruct (Order.validate _); rewrite H; [|done].
    cbn [snd]. eapply with_order_kept; eauto using same_order_set_status.
  - pose proof (payhere_webhook_outcome Number env b db) as H.
    cbv zeta in H. destruct (negb _); [by rewrite H|].
    destruct (Orders db !! WebhookBody.custom_1 b) as [o0|] eqn:Ho0;
      [|by rewrite H].
    destruct (negb _); [by rewrite H|].
    destruct (_ && _); rewrite H; [|done].
    cbn [snd].
    apply (with_order_kept (with_payment _ _ db) _ o0);
      eauto using same_order_set_status.
  - pose proof (confirm_outcome b db) as H. cbv zeta in H.
    destruct (Orders db !! ConfirmBody.orderId b) as [o0|] eqn:Ho0;
      [|by rewrite H].
    destruct (String.eqb _ _); [|by rewrite H].
    destruct (Order.validate _); rewrite H; [|done].
    cbn [snd]. eapply with_order_kept; eauto using same_order_set_status.
Qed.

(** X16: no sequence of requests deletes an order or changes its owner,
    its line items, its amount or its shipping address: only status and
    tracking info of a stored order ever change. *)
Theorem orders_are_kept Number env ops db id o :
  Orders db !! id = Some o ->
  exists o', Orders (run_all Number env ops db) !! id = Some o'
             /\ same_order o o'.
Proof.
  revert db o. induction ops as [|op ops IH]; intros db o Ho.
  - exists o. split; [done | apply same_order_refl].
  - destruct (run_order_kept Number env op db id o Ho) as (o1 & Ho1 & Hs1).
    destruct (IH _ _ Ho1) as (o2 & Ho2 & Hs2).
    exists o2. split; [exact Ho2 | by eapply same_order_trans].
Qed.

Lemma orders_are_kept_witness :
  let ops := [ UpdateStatus 0 {| StatusBody.status := Some "shipped";
                                 StatusBody.trackingInfo := Some tracking |};
               CancelOrder customer 0;
               Confirm {| ConfirmBody.orderId := 0;
                          ConfirmBody.paymentId := "320025";
                          ConfirmBody.status := "completed" |} ] in
  let db := shop_with_order 2 "pending" 3 in
  Orders db !! 0%N = Some (order_of "pending" 3)
  /\ exists o', Orders (run_all Number_digits demo_env ops db) !! 0%N = Some o'
                /\ same_order (order_of "pending" 3) o'.
Proof.
  split; [reflexivity|].
  exact (orders_are_kept Number_digits demo_env _
           (shop_with_order 2 "pending" 3) 0%N (order_of "pending" 3)
           eq_refl).
Defined.

Lemma run_product_kept Number env op db id :
  exists d,
    Products (snd (run Number env op db)) !! id
    = Product.inc_stock d <$> Products db !! id
    /\ (is_CreateOrder op = false -> d = 0).
Proof.
  assert (Hsame : forall ps : gmap N Product.doc,
            ps !! id = Product.inc_stock 0 <$> ps !! id).
  { intros ps. destruct (ps !! id) as [p|]; simpl; [|done].
    by rewrite inc_stock_0. }
  destruct op as [user b | ? ? | ? ? | ? | ?];
    try (exists 0; split; [|done];
         rewrite run_Products by (intros; discriminate); apply Hsame).
  simpl.
  destruct (createOrder_outcome user b db)
    as [[r [-> _]] | [items (_ & _ & _ & ->)]]; cbn [snd Products].
  - exists 0. split; [apply Hsame | done].
  - exists (- requested id items). split; [apply dec_all_lookup | done].
Qed.

(** X17: no sequence of requests to these five endpoints adds or removes
    a product or changes a title, a price or an active flag: a product
    differs from what it was at most in its stock, and not even in that
    when the sequence has no order creation. *)
Theorem products_change_in_stock_only Number env ops db id :
  exists d,
    Products (run_all Number env ops db) !! id
    = Product.inc_stock d <$> Products db !! id
    /\ (forallb (fun op => negb (is_CreateOrder op)) ops = true -> d = 0).
Proof.
  revert db. induction ops as [|op ops IH]; intros db.
  - exists 0. split; [|done]. unfold run_all. cbn [foldl].
    destruct (Products db !! id) as [p|]; simpl; [|done].
    by rewrite inc_stock_0.
  - destruct (run_product_kept Number env op db id) as (d1 & Hd1 & Hz1).
    destruct (IH (snd (run Number env op db))) as (d2 & Hd2 & Hz2).
    exists (d1 + d2). split.
    + cbn [run_all foldl]. fold (run_all Number env ops).
      unfold run_all in Hd2 |- *. rewrite Hd2, Hd1.
      destruct (Products db !! id) as [p|]; simpl; [|done].
      by rewrite inc_stock_inc_stock.
    + cbn [forallb]. intros [Hop Hops]%andb_true_iff.
      rewrite Hz1, Hz2; [lia | done |]. by destruct (is_CreateOrder op).
Qed.

(** ** Reachable states *)

Lemma run_Payments_cases Number env op db :
  Payments (snd (run Number env op db)) = Payments db
  \/ exists b o,
       op = PayhereWebhook b
       /\ Orders db !! WebhookBody.custom_1 b = Some o
       /\ Payment.validate (webhook_payment Number b) = true
       /\ Payments (snd (run Number env op db))
          = <[fresh_id (Payments db) := webhook_payment Number b]>
              (Payments db).
Proof.
  destruct op as [user b | id b | user id | b | b]; simpl.
  - left. apply createOrder_Payments.
  - left. pose proof (updateStatus_outcome id b db) as H.
    destruct (StatusBody.status b) as [s|]; [|by rewrite H].
    destruct (negb _); [by rewrite H|].
    destruct (Orders db !! id); [|by rewrite H].
    cbv zeta in H. destruct (Order.validate _); by rewrite H.
  - left. apply cancelOrder_Payments.
  - pose proof (payhere_webhook_outcome Number env b db) as H.
    cbv zeta in H. destruct (negb _); [left; by rewrite H|].
    destruct (Orders db !! WebhookBody.custom_1 b) as [o|] eqn:Ho;
      [|left; by rewrite H].
    destruct (Payment.validate (webhook_payment Number b)) eqn:Hv;
      cbn [negb] in H; [|left; by rewrite H].
    right. exists b, o. repeat split; try done.
    destruct (_ && _); by rewrite H.
  - left. pose proof (confirm_outcome b db) as H. cbv zeta in H.
    destruct (Orders db !! _); [|by rewrite H].
    destruct (String.eqb _ _); [|by rewrite H].
    destruct (Order.validate _); by rewrite H.
Qed.

Lemma webhook_payment_gateway Number b :
  Payment.validate (webhook_payment Number b) = true ->
  Payment.method (webhook_payment Number b) = "card"
  /\ (Payment.status (webhook_payment Number b) = "paid"
      \/ Payment.status (webhook_payment Number b) = "failed")
  /\ is_Some (Payment.amount (webhook_payment Number b))
  /\ is_Some (Payment.transactionId (webhook_payment Number b)).
Proof.
  unfold Payment.validate, webhook_payment. cbn.
  destruct (Number _); [|done]. intros _.
  repeat split; try done; [|by eexists..].
  destruct (String.eqb _ "2"); [by left | by right].
Qed.

(** X18: in every reachable state each payment record was written by
    the webhook for an order that is stored: its method is "card", its
    status "paid" or "failed", it has an amount and a gateway payment id.
    No payment is ever pending or refunded, and none is left without its
    order. *)
Theorem reachable_payments_from_gateway Number env db id p :
  reachable Number env db ->
  Payments db !! id = Some p ->
  gateway_payment db p.
Proof.
  intros Hreach. revert id p.
  induction Hreach as [db (_ & Hpay & _) | db op _ IH]; intros id p.
  - by rewrite Hpay, lookup_empty.
  - assert (Hkept : forall q, gateway_payment db q ->
                      gateway_payment (snd (run Number env op db)) q).
    { intros q (Hm & Hs & Ha & Ht & [o Ho]).
      repeat split; try done.
      destruct (run_order_kept Number env op db _ o Ho) as (o' & Ho' & _).
      by exists o'. }
    destruct (run_Payments_cases Number env op db)
      as [-> | (b & o & -> & Ho & Hv & ->)].
    + intros Hp. eauto.
    + destruct (decide (fresh_id (Payments db) = id)) as [<- | Hne].
      * rewrite lookup_insert_eq. intros [= <-].
        destruct (webhook_payment_gateway Number b Hv) as (Hm & Hs & Ha & Ht).
        repeat split; try done.
        destruct (run_order_kept Number env (PayhereWebhook b) db _ o Ho)
          as (o' & Ho' & _).
        by exists o'.
      * rewrite lookup_insert_ne by done. intros Hp. eauto.
Qed.

Lemma shop_initial n : 0 <= n -> initial (shop n).
Proof.
  intros Hn. repeat split. intros id p Hp. unfold shop in Hp.
  cbn [Products] in Hp. apply lookup_singleton_Some in Hp as [_ <-].
  simpl. lia.
Qed.

Lemma reachable_payments_from_gateway_witness :
  let db1 := snd (run Number_digits demo_env
                   (CreateOrder None
                      (guest_order [ {| product := 1; quantity := 3 |} ] 300))
                   (shop 5)) in
  let db2 := snd (run Number_digits demo_env
                   (PayhereWebhook
                      (notification "2" "36827BDD26D1F493AE97936865009596"))
                   db1) in
  let p := {| Payment.order := 0; Payment.amount := Some 300;
              Payment.method := "card"; Payment.status := "paid";
              Payment.transactionId := Some "320025" |} in
  Payments db2 !! 0%N = Some p /\ gateway_payment db2 p.
Proof.
  assert (Hp : Payments
    (snd (run Number_digits demo_env
            (PayhereWebhook
               (notification "2" "36827BDD26D1F493AE97936865009596"))
            (snd (run Number_digits demo_env
                    (CreateOrder None
                       (guest_order [ {| product := 1; quantity := 3 |} ] 300))
                    (shop 5))))) !! 0%N
    = Some {| Payment.order := 0; Payment.amount := Some 300;
              Payment.method := "card"; Payment.status := "paid";
              Payment.transactionId := Some "320025" |}).
  { vm_compute. reflexivity. }
  split; [exact Hp|].
  refine (reachable_payments_from_gateway Number_digits demo_env _ 0%N _ _ Hp).
  do 2 apply reachable_step. apply reachable_init, shop_initial. lia.
Defined.

(** X19: in every reachable state each stored order passes the order
    schema: its status is one of pending, confirmed, shipped, delivered,
    cancelled, returned, it has a total amount and a non-empty shipping
    address. *)
Theorem reachable_orders_in_schema Number env db id o :
  reachable Number env db ->
  Orders db !! id = Some o ->
  In (Order.status o)
     ["pending"; "confirmed"; "shipped"; "delivered"; "cancelled"; "returned"]
  /\ is_Some (Order.totalAmount o)
  /\ Order.shippingAddress o <> "".
Proof.
  intros Hreach Ho.
  pose proof (reachable_orders_valid _ _ _ Hreach id o Ho) as Hv.
  unfold Order.validate in Hv.
  apply andb_true_iff in Hv as [[Ht Hs]%andb_true_iff Ha].
  split; [by apply includes_In|]. split.
  - destruct (Order.totalAmount o); [by eexists | done].
  - apply String.eqb_neq. by destruct (String.eqb _ "").
Qed.

Lemma reachable_orders_in_schema_witness :
  let db1 := snd (run Number_digits demo_env
                   (CreateOrder None
                      (guest_order [ {| product := 1; quantity := 3 |} ] 300))
                   (shop 5)) in
  let o := new_order None
             (guest_order [ {| product := 1; quantity := 3 |} ] 300)
             [ {| product := 1; quantity := 3 |} ] in
  Orders db1 !! 0%N = Some o
  /\ In (Order.status o)
        ["pending"; "confirmed"; "shipped"; "delivered"; "cancelled";
         "returned"]
  /\ is_Some (Order.totalAmount o)
  /\ Order.shippingAddress o <> "".
Proof.
  assert (Ho : Orders
    (snd (run Number_digits demo_env
            (CreateOrder None
               (guest_order [ {| product := 1; quantity := 3 |} ] 300))
            (shop 5))) !! 0%N
    = Some (new_order None
              (guest_order [ {| product := 1; quantity := 3 |} ] 300)
              [ {| product := 1; quantity := 3 |} ])).
  { vm_compute. reflexivity. }
  split; [exact Ho|].
  refine (reachable_orders_in_schema Number_digits demo_env _ 0%N _ _ Ho).
  apply reachable_step, reachable_init, shop_initial. lia.
Defined.

(** ** Statistics *)

Lemma countDocuments_cons {A} (q : A -> bool) x l :
  countDocuments q (x :: l)
  = ((if q x then 1 else 0) + countDocuments q l)%nat.
Proof. unfold countDocuments. simpl. by destruct (q x). Qed.

Lemma sum_total_cons {A} (q : A -> bool) f x l :
  sum_total q f (x :: l)
  = (if q x then default 0 (f x) else 0) + sum_total q f l.
Proof. unfold sum_total. simpl. by destruct (q x). Qed.

Lemma countDocuments_perm {A} (q : A -> bool) l l' :
  l ≡ₚ l' -> countDocuments q l = countDocuments q l'.
Proof.
  induction 1 as [|x l l' _ IH|x y l|l1 l2 l3 _ IH1 _ IH2];
    rewrite ?countDocuments_cons; [done|by rewrite IH|lia|congruence].
Qed.

Lemma sum_total_perm {A} (q : A -> bool) f l l' :
  l ≡ₚ l' -> sum_total q f l = sum_total q f l'.
Proof.
  induction 1 as [|x l l' _ IH|x y l|l1 l2 l3 _ IH1 _ IH2];
    rewrite ?sum_total_cons; [done|by rewrite IH|lia|congruence].
Qed.

Lemma docs_insert_fresh {V} (m : gmap N V) id v :
  m !! id = None -> (map_to_list (<[id := v]> m)).*2 ≡ₚ v :: (map_to_list m).*2.
Proof. intros Hid. by rewrite map_to_list_insert. Qed.

Lemma docs_lookup {V} (m : gmap N V) id v :
  m !! id = Some v ->
  (map_to_list m).*2 ≡ₚ v :: (map_to_list (delete id m)).*2.
Proof. intros Hid. by rewrite <- (map_to_list_delete m id v Hid). Qed.

Lemma docs_insert_stored {V} (m : gmap N V) id v :
  (map_to_list (<[id := v]> m)).*2 ≡ₚ v :: (map_to_list (delete id m)).*2.
Proof.
  rewrite <- insert_delete_eq. apply docs_insert_fresh, lookup_delete_eq.
Qed.

Lemma count_by_status l :
  Forall (fun o => includes Order.status_enum (Order.status o) = true) l ->
  countDocuments (fun _ => true) l
  = (countDocuments (has_status "pending") l
     + countDocuments (has_status "confirmed") l
     + countDocuments (has_status "shipped") l
     + countDocuments (has_status "delivered") l
     + countDocuments (has_status "cancelled") l
     + countDocuments (has_status "returned") l)%nat.
Proof.
  induction 1 as [|o l Ho _ IH]; [done|].
  rewrite !countDocuments_cons, IH. unfold has_status.
  apply includes_In in Ho. simpl in Ho.
  destruct Ho as [<- | [<- | [<- | [<- | [<- | [<- | []]]]]]]; simpl; lia.
Qed.

(** X20: in every reachable state the statistics count every order, and
    the five statuses they report add up to the total less the orders
    that are "returned", which are in no reported count. *)
Theorem order_stats_add_up Number env db :
  reachable Number env db ->
  let st := order_stats db in
  totalOrders st = size (Orders db)
  /\ totalOrders st
     = (pendingOrders st + confirmedOrders st + shippedOrders st
        + deliveredOrders st + cancelledOrders st
        + countDocuments (has_status "returned") (order_docs db))%nat.
Proof.
  intros Hreach. cbv zeta. unfold order_stats.
  cbn [totalOrders pendingOrders confirmedOrders shippedOrders
       deliveredOrders cancelledOrders].
  split.
  - unfold countDocuments, order_docs. cbn [List.filter].
    assert (Hall : forall l : list Order.doc, List.filter (fun _ => true) l = l).
    { induction l as [|x l IH]; simpl; [done | by rewrite IH]. }
    by rewrite Hall, length_fmap, length_map_to_list.
  - apply count_by_status. apply Forall_forall. intros o Ho.
    unfold order_docs in Ho. apply list_elem_of_fmap in Ho as [[id o'] [-> Ho]].
    apply elem_of_map_to_list in Ho.
    pose proof (reachable_orders_valid _ _ _ Hreach id o' Ho) as Hv.
    unfold Order.validate in Hv.
    by apply andb_true_iff in Hv as [[_ Hs]%andb_true_iff _].
Qed.

Lemma order_stats_add_up_witness :
  let db := snd (run Number_digits demo_env
                   (CreateOrder None
                      (guest_order [ {| product := 1; quantity := 3 |} ] 300))
                   (shop 5)) in
  reachable Number_digits demo_env db
  /\ totalOrders (order_stats db) = size (Orders db)
  /\ totalOrders (order_stats db)
     = (pendingOrders (order_stats db) + confirmedOrders (order_stats db)
        + shippedOrders (order_stats db) + deliveredOrders (order_stats db)
        + cancelledOrders (order_stats db)
        + countDocuments (has_status "returned") (order_docs db))%nat.
Proof.
  assert (Hreach : reachable Number_digits demo_env
    (snd (run Number_digits demo_env
            (CreateOrder None
               (guest_order [ {| product := 1; quantity := 3 |} ] 300))
            (shop 5)))).
  { apply reachable_step, reachable_init, shop_initial. lia. }
  split; [exact Hreach|].
  exact (order_stats_add_up Number_digits demo_env _ Hreach).
Defined.

(** X21: an order creation that stores its order raises the total and
    the pending count of the statistics by one and leaves the other
    counts and the revenue as they were. *)
Theorem order_stats_after_creation user b items db :
  CreateOrderBody.products b = Some items ->
  snd (createOrder user b db) <> db ->
  let st := order_stats db in
  order_stats (snd (createOrder user b db))
  = {| totalOrders := S (totalOrders st);
       pendingOrders := S (pendingOrders st);
       confirmedOrders := confirmedOrders st;
       shippedOrders := shippedOrders st;
       deliveredOrders := deliveredOrders st;
       cancelledOrders := cancelledOrders st;
       totalRevenue := totalRevenue st |}.
Proof.
  intros Hitems Hchanged. cbv zeta.
  destruct (createOrder_effects user b items db Hitems Hchanged)
    as (Horders & _ & _ & _).
  assert (Hdocs : order_docs (snd (createOrder user b db))
                  ≡ₚ new_order user b items :: order_docs db).
  { unfold order_docs. rewrite Horders.
    apply docs_insert_fresh, fresh_id_None. }
  unfold order_stats.
  rewrite !(countDocuments_perm _ _ _ Hdocs), (sum_total_perm _ _ _ _ Hdocs).
  rewrite !countDocuments_cons, sum_total_cons. reflexivity.
Qed.

Lemma order_stats_after_creation_witness :
  let b := guest_order [ {| product := 1; quantity := 3 |} ] 300 in
  snd (createOrder None b (shop 5)) <> shop 5
  /\ order_stats (snd (createOrder None b (shop 5)))
     = {| totalOrders := 1; pendingOrders := 1; confirmedOrders := 0;
          shippedOrders := 0; deliveredOrders := 0; cancelledOrders := 0;
          totalRevenue := 0 |}.
Proof.
  assert (Hne : snd (createOrder None
                  (guest_order [ {| product := 1; quantity := 3 |} ] 300)
                  (shop 5)) <> shop 5).
  { intros Heq. apply (f_equal (fun d => stock_of d 1)) in Heq.
    vm_compute in Heq. discriminate. }
  split; [exact Hne|].
  exact (order_stats_after_creation None
           (guest_order [ {| product := 1; quantity := 3 |} ] 300)
           _ (shop 5) eq_refl Hne).
Defined.

Lemma revenue_with_order id o o' db :
  Orders db !! id = Some o ->
  totalRevenue (order_stats (with_order id o' db))
  = totalRevenue (order_stats db) - revenue_share o + revenue_share o'.
Proof.
  intros Ho. unfold order_stats, with_order, order_docs.
  cbn [totalRevenue Orders].
  rewrite (sum_total_perm _ _ _ _ (docs_insert_stored (Orders db) id o')).
  rewrite (sum_total_perm _ _ _ _ (docs_lookup (Orders db) id o Ho)).
  rewrite !sum_total_cons. unfold revenue_share. lia.
Qed.

(** X22: a status update that goes through moves the revenue of the
    statistics by the order's amount exactly when the order enters or
    leaves the statuses shipped and delivered: the new revenue is the old
    one less the order's share before plus its share after. *)
Theorem revenue_after_updateStatus id b db s o :
  Orders db !! id = Some o ->
  Order.validate o = true ->
  StatusBody.status b = Some s ->
  includes validStatuses s = true ->
  totalRevenue (order_stats (snd (updateStatus id b db)))
  = totalRevenue (order_stats db) - revenue_share o
    + revenue_share (Order.set_status s o).
Proof.
  intros Ho Hv Hs Hin.
  pose proof (updateStatus_outcome id b db) as H.
  rewrite Hs, Hin, Ho in H. cbn [negb] in H. cbv zeta in H.
  rewrite (validate_updated_order o s _ Hv Hin) in H. rewrite H. cbn [snd].
  rewrite (revenue_with_order id o _ db Ho). f_equal.
  unfold revenue_share, updated_order.
  destruct (StatusBody.trackingInfo b); [|done].
  by destruct (String.eqb s "shipped").
Qed.

Lemma revenue_after_updateStatus_witness :
  let b := {| StatusBody.status := Some "shipped";
              StatusBody.trackingInfo := None |} in
  let db := shop_with_order 2 "confirmed" 3 in
  totalRevenue (order_stats db) = 0
  /\ totalRevenue (order_stats (snd (updateStatus 0 b db)))
     = 0 - 0 + 300.
Proof.
  split; [reflexivity|].
  exact (revenue_after_updateStatus 0
           {| StatusBody.status := Some "shipped";
              StatusBody.trackingInfo := None |}
           (shop_with_order 2 "confirmed" 3) "shipped"
           (order_of "confirmed" 3) eq_refl eq_refl eq_refl eq_refl).
Defined.

(** X23: every accepted notification with status code "2" adds its amount
    to the paid revenue of the dashboard, also when the same notification
    was counted before; one with another status code adds nothing. *)
Theorem paid_revenue_after_webhook Number env b db o a :
  WebhookBody.md5sig b = expectedMd5sig env b ->
  Orders db !! WebhookBody.custom_1 b = Some o ->
  Number (WebhookBody.payhere_amount b) = Some a ->
  paid_revenue (snd (payhere_webhook Number env b db))
  = paid_revenue db
    + (if String.eqb (WebhookBody.status_code b) "2" then a else 0).
Proof.
  intros Hsig Ho Ha.
  destruct (payhere_webhook_accepted Number env b db o a Hsig Ho Ha)
    as [Hpay _].
  unfold paid_revenue, payment_docs. rewrite Hpay.
  rewrite (sum_total_perm _ _ _ _
             (docs_insert_fresh (Payments db) _ _ (fresh_id_None _))).
  rewrite sum_total_cons. unfold webhook_payment. cbn. rewrite Ha.
  destruct (String.eqb (WebhookBody.status_code b) "2"); simpl; lia.
Qed.

Lemma paid_revenue_after_webhook_witness :
  let b := notification "2" "36827BDD26D1F493AE97936865009596" in
  let db := snd (payhere_webhook Number_digits demo_env b
                   (shop_with_order 2 "pending" 3)) in
  paid_revenue db = 300
  /\ paid_revenue (snd (payhere_webhook Number_digits demo_env b db))
     = paid_revenue db + 300.
Proof.
  split; [vm_compute; reflexivity|].
  refine (paid_revenue_after_webhook Number_digits demo_env
            (notification "2" "36827BDD26D1F493AE97936865009596")
            _ (order_of "confirmed" 3) 300 eq_refl _ eq_refl).
  vm_compute. reflexivity.
Defined.

(** ** The earlier revision of the webhook *)

(** X24: the webhook of the earlier revision never writes and never
    answers 200: the payment it builds has neither the [order] nor the
    [method] the payment schema requires, so for a signed notification of
    a stored order its [save()] is refused before the order is touched. *)
Theorem legacy_webhook_never_writes Number PAYHERE_SECRET b db :
  snd (legacy_payhere_webhook Number PAYHERE_SECRET b db) = db
  /\ fst (legacy_payhere_webhook Number PAYHERE_SECRET b db)
     = if negb (String.eqb (WebhookBody.md5sig b)
                  (legacy_expectedMd5sig PAYHERE_SECRET b))
       then Json 400 (error "Invalid signature")
       else match Orders db !! WebhookBody.custom_1 b with
            | None => Json 404 (error "Order not found")
            | Some _ => Json 500 (error "Webhook processing failed")
            end.
Proof.
  unfold legacy_payhere_webhook.
  unfold try_catch, mbind, handler_bind, Order_findById.
  destruct (negb _); [done|].
  by destruct (Orders db !! WebhookBody.custom_1 b).
Qed.

(** ** Product status *)

Lemma updateProductStatus_outcome id a db :
  match Products db !! id with
  | None =>
    updateProductStatus id a db = (Json 404 (error "Product not found"), db)
  | Some p =>
    if Product_validate p then
      updateProductStatus id a db
      = (Json 200 (message (if a then "Product activated successfully"
                            else "Product deactivated successfully")),
         {| Products := <[id := Product_set_isActive a p]> (Products db);
            Orders := Orders db; Payments := Payments db |})
    else
      updateProductStatus id a db
      = (Json 500 (error "Failed to update product status"), db)
  end.
Proof.
  unfold updateProductStatus.
  unfold try_catch, mbind, handler_bind, Product_findById, Product_save.
  destruct (Products db !! id) as [p|]; [|done].
  unfold Product_validate. cbn [Product_set_isActive Product.title].
  by destruct (negb _).
Qed.

Lemma createOrder_refuses user b items db :
  CreateOrderBody.products b = Some items ->
  Exists (bad_item db) items ->
  exists e, createOrder user b db = (Json 400 e, db).
Proof.
  intros Hitems Hbad. unfold createOrder. rewrite Hitems.
  destruct items as [|item rest]; [by apply Exists_nil in Hbad|].
  destruct (truthy (CreateOrderBody.shippingAddress b)); cbn [negb].
  - destruct (check_stock_loop (item :: rest) db) as [[Hall _] | [_ [e He]]].
    + exfalso. apply Exists_exists in Hbad as [x [Hin Hx]].
      rewrite Forall_forall in Hall. exact (Hall x Hin Hx).
    + exists e. apply try_catch_sent. by apply bind_sent.
  - eexists. by apply try_catch_sent.
Qed.

(** X25: once the admin has deactivated a product, every order that
    names it is refused with 400 and writes nothing, whatever else the
    order holds. *)
Theorem deactivated_product_not_orderable id db p user b items :
  Products db !! id = Some p ->
  Product_validate p = true ->
  CreateOrderBody.products b = Some items ->
  In id (map product items) ->
  let db' := snd (updateProductStatus id false db) in
  exists e, createOrder user b db' = (Json 400 e, db').
Proof.
  intros Hp Hv Hitems Hin. cbv zeta.
  pose proof (updateProductStatus_outcome id false db) as H.
  rewrite Hp, Hv in H. rewrite H. cbn [snd].
  apply (createOrder_refuses user b items); [done|].
  apply in_map_iff in Hin as (item & Hid & Hitem).
  apply Exists_exists. exists item.
  split; [first [done | by apply list_elem_of_In]|].
  unfold bad_item. cbn [Products]. rewrite Hid, lookup_insert_eq.
  by left.
Qed.

Lemma deactivated_product_not_orderable_witness :
  let b := guest_order [ {| product := 1; quantity := 1 |} ] 100 in
  let db' := snd (updateProductStatus 1 false (shop 5)) in
  Products (shop 5) !! 1%N = Some (vase 5)
  /\ exists e, createOrder None b db' = (Json 400 e, db').
Proof.
  split; [reflexivity|].
  refine (deactivated_product_not_orderable 1 (shop 5) (vase 5) None
            (guest_order [ {| product := 1; quantity := 1 |} ] 100)
            [ {| product := 1; quantity := 1 |} ]
            eq_refl eq_refl eq_refl _).
  simpl. by left.
Defined.

(** X26: deactivating an active product and activating it again gives
    back the database as it was: the status change touches nothing but
    the flag, in particular not the stock. *)
Theorem product_status_round_trip id db p :
  Products db !! id = Some p ->
  Product_validate p = true ->
  Product.isActive p = true ->
  snd (updateProductStatus id true (snd (updateProductStatus id false db)))
  = db.
Proof.
  intros Hp Hv Hact.
  pose proof (updateProductStatus_outcome id false db) as H.
  rewrite Hp, Hv in H. rewrite H. cbn [snd].
  pose proof (updateProductStatus_outcome id true
    {| Products := <[id := Product_set_isActive false p]> (Products db);
       Orders := Orders db; Payments := Payments db |}) as H'.
  cbn [Products] in H'. rewrite lookup_insert_eq in H'.
  unfold Product_validate in H', Hv. cbn [Product_set_isActive Product.title] in H'.
  rewrite Hv in H'. rewrite H'. cbn [snd Products Orders Payments].
  rewrite insert_insert_eq.
  destruct db as [ps os pays]. cbn [Products Orders Payments] in *. f_equal.
  apply insert_id. rewrite Hp. f_equal.
  destruct p as [t pr st act]. cbn in *. by subst.
Qed.

Lemma product_status_round_trip_witness :
  Products (shop 5) !! 1%N = Some (vase 5)
  /\ snd (updateProductStatus 1 true
            (snd (updateProductStatus 1 false (shop 5))))
     = shop 5.
Proof.
  split; [reflexivity|].
  exact (product_status_round_trip 1 (shop 5) (vase 5)
           eq_refl eq_refl eq_refl).
Defined.

(** ** Who places and who cancels an order *)

Lemma guest_check_refuses b db :
  has_contact b = false ->
  (if negb (truthy (CreateOrderBody.customerName b))
      || negb (truthy (CreateOrderBody.customerEmail b))
      || negb (truthy (CreateOrderBody.customerPhone b))
   then send (Json 400
          (error "Customer information is required for guest orders"))
   else mret None : handler (option N)) db
  = (Sent (Json 400
       (error "Customer information is required for guest orders")), db).
Proof.
  unfold has_contact.
  destruct (truthy (CreateOrderBody.customerName b)),
    (truthy (CreateOrderBody.customerEmail b)),
    (truthy (CreateOrderBody.customerPhone b)); done.
Qed.

(** X27: an order without authenticated user that lacks the name, the
    e-mail address or the phone number of the customer is refused with
    400 and writes nothing. *)
Theorem createOrder_guest_needs_contact b db :
  has_contact b = false ->
  exists e, createOrder None b db = (Json 400 e, db).
Proof.
  intros Hcontact. unfold createOrder.
  destruct (CreateOrderBody.products b) as [[|item rest]|];
    [eexists; by apply try_catch_sent| |eexists; by apply try_catch_sent].
  destruct (truthy (CreateOrderBody.shippingAddress b)); cbn [negb];
    [|eexists; by apply try_catch_sent].
  destruct (check_stock_loop (item :: rest) db) as [[_ Hloop] | [_ [e He]]].
  - eexists. apply try_catch_sent.
    erewrite bind_value; [|exact Hloop].
    apply bind_sent. by apply guest_check_refuses.
  - exists e. apply try_catch_sent. by apply bind_sent.
Qed.

Lemma createOrder_guest_needs_contact_witness :
  let b := {| CreateOrderBody.products := Some [ {| product := 1; quantity := 3 |} ];
              CreateOrderBody.shippingAddress := Some "12 Galle Road, Colombo";
              CreateOrderBody.customerName := Some "Nimal";
              CreateOrderBody.customerEmail := Some "";
              CreateOrderBody.customerPhone := Some "0771234567";
              CreateOrderBody.totalAmount := Some 300 |} in
  has_contact b = false
  /\ exists e, createOrder None b (shop 5) = (Json 400 e, shop 5).
Proof.
  split; [reflexivity|].
  exact (createOrder_guest_needs_contact
    {| CreateOrderBody.products := Some [ {| product := 1; quantity := 3 |} ];
       CreateOrderBody.shippingAddress := Some "12 Galle Road, Colombo";
       CreateOrderBody.customerName := Some "Nimal";
       CreateOrderBody.customerEmail := Some "";
       CreateOrderBody.customerPhone := Some "0771234567";
       CreateOrderBody.totalAmount := Some 300 |} (shop 5) eq_refl).
Defined.

(** The run of an order creation whose request passes every check. *)
Lemma createOrder_stores user b items t db :
  CreateOrderBody.products b = Some items -> items <> [] ->
  truthy (CreateOrderBody.shippingAddress b) = true ->
  Forall (fun item => ~ bad_item db item) items ->
  (is_Some user \/ has_contact b = true) ->
  CreateOrderBody.totalAmount b = Some t ->
  createOrder user b db
  = (Json 500 (error "Failed to create order"),
     {| Products := dec_all items (Products db);
        Orders := <[fresh_id (Orders db) := new_order user b items]>
                    (Orders db);
        Payments := Payments db |}).
Proof.
  intros Hitems Hne Hship Hgood Hwho Ht.
  destruct (createOrder_outcome user b db)
    as [[r [Hr _]] | [items' (Hitems' & _ & _ & Hr)]].
  2:{ rewrite Hitems in Hitems'. by injection Hitems' as <-. }
  exfalso. revert Hr. unfold createOrder. rewrite Hitems.
  destruct items as [|item rest]; [done|].
  rewrite Hship. cbn [negb].
  destruct (check_stock_loop (item :: rest) db) as [[_ Hloop] | [Hbad _]].
  2:{ apply Exists_exists in Hbad as [x [Hin Hx]].
      rewrite Forall_forall in Hgood. destruct (Hgood x Hin Hx). }
  assert (Hv : Order.validate (new_order user b (item :: rest)) = true).
  { unfold Order.validate, new_order. cbn. rewrite Ht.
    by rewrite (truthy_default _ Hship). }
  assert (Hguest :
    (match user with
     | Some u => mret (Some (_id u))
     | None =>
       if negb (truthy (CreateOrderBody.customerName b))
          || negb (truthy (CreateOrderBody.customerEmail b))
          || negb (truthy (CreateOrderBody.customerPhone b))
       then send (Json 400
         (error "Customer information is required for guest orders"))
       else mret None
     end : handler (option N)) db = (Value (_id <$> user), db)).
  { destruct user as [u|]; [done|].
    destruct Hwho as [[? [=]] | Hc]. unfold has_contact in Hc.
    apply andb_true_iff in Hc as [[-> ->]%andb_true_iff ->]. done. }
  intros Hr.
  erewrite (try_catch_proper _ _ _ _ (bind_value _ _ _ _ _ Hloop)) in Hr.
  erewrite (try_catch_proper _ _ _ _ (bind_value _ _ _ _ _ Hguest)) in Hr.
  fold (new_order user b (item :: rest)) in Hr.
  erewrite try_catch_thrown in Hr.
  2:{ erewrite bind_value; [|by apply Order_create_ok].
      erewrite bind_value; [|apply decrement_loop].
      apply bind_thrown. unfold Payment_create. simpl. by rewrite Ht. }
  injection Hr as _ Hdb.
  apply (f_equal (fun d => Orders d !! fresh_id (Orders db))) in Hdb.
  cbn [Orders] in Hdb. by rewrite lookup_insert_eq, fresh_id_None in Hdb.
Qed.

(** X28: the order that an authenticated user places can be cancelled by
    that user, and by no other user who is not an admin: such a caller
    gets 403 and nothing is written. *)
Theorem placed_order_cancelled_by_owner_only u u' b items t db :
  CreateOrderBody.products b = Some items -> items <> [] ->
  truthy (CreateOrderBody.shippingAddress b) = true ->
  Forall (fun item => ~ bad_item db item) items ->
  CreateOrderBody.totalAmount b = Some t ->
  role u' <> "admin" -> _id u' <> _id u ->
  let db' := snd (createOrder (Some u) b db) in
  let id := fresh_id (Orders db) in
  fst (cancelOrder u id db')
  = Json 200 (message "Order cancelled successfully")
  /\ cancelOrder u' id db'
     = (Json 403 (error "Not authorized to cancel this order"), db').
Proof.
  intros Hitems Hne Hship Hgood Ht Hrole Hid. cbv zeta.
  rewrite (createOrder_stores (Some u) b items t db) by eauto.
  cbn [snd].
  set (db' := {| Products := dec_all items (Products db);
                 Orders := <[fresh_id (Orders db) :=
                               new_order (Some u) b items]> (Orders db);
                 Payments := Payments db |}).
  assert (Ho : Orders db' !! fresh_id (Orders db)
               = Some (new_order (Some u) b items)).
  { unfold db'. cbn [Orders]. by rewrite lookup_insert_eq. }
  assert (Hv : Order.validate (new_order (Some u) b items) = true).
  { unfold Order.validate, new_order. cbn. rewrite Ht.
    by rewrite (truthy_default _ Hship). }
  split.
  - pose proof (cancelOrder_outcome u (fresh_id (Orders db)) db') as H.
    rewrite Ho in H.
    assert (Hmay : may_cancel u (new_order (Some u) b items) = true).
    { unfold may_cancel, new_order. cbn. rewrite N.eqb_refl.
      apply orb_true_r. }
    rewrite Hmay in H. cbn in H.
    rewrite (validate_set_status _ "cancelled" Hv) in H by reflexivity.
    by rewrite H.
  - pose proof (cancelOrder_outcome u' (fresh_id (Orders db)) db') as H.
    rewrite Ho in H.
    assert (Hmay : may_cancel u' (new_order (Some u) b items) = false).
    { unfold may_cancel, new_order. cbn.
      apply String.eqb_neq in Hrole. rewrite Hrole.
      apply N.eqb_neq. congruence. }
    by rewrite Hmay in H.
Qed.

Lemma placed_order_cancelled_by_owner_only_witness :
  let b := guest_order [ {| product := 1; quantity := 3 |} ] 300 in
  let db' := snd (createOrder (Some customer) b (shop 5)) in
  fst (cancelOrder customer (fresh_id (Orders (shop 5))) db')
  = Json 200 (message "Order cancelled successfully")
  /\ cancelOrder stranger (fresh_id (Orders (shop 5))) db'
     = (Json 403 (error "Not authorized to cancel this order"), db').
Proof.
  refine (placed_order_cancelled_by_owner_only customer stranger
            (guest_order [ {| product := 1; quantity := 3 |} ] 300)
            [ {| product := 1; quantity := 3 |} ] 300 (shop 5)
            eq_refl _ eq_refl _ eq_refl _ _); try discriminate.
  constructor; [|constructor]. vm_compute. intros [H | H]; discriminate.
Defined.

(** X29: the stock check lets a negative quantity through: an order of
    one line with a quantity below zero, for an active product whose
    stock is not negative, is stored, and the stock of the product goes
    up by that quantity. *)
Theorem createOrder_negative_quantity user b id q t p db :
  CreateOrderBody.products b = Some [ {| product := id; quantity := q |} ] ->
  truthy (CreateOrderBody.shippingAddress b) = true ->
  (is_Some user \/ has_contact b = true) ->
  CreateOrderBody.totalAmount b = Some t ->
  Products db !! id = Some p ->
  Product.isActive p = true -> 0 <= Product.stock p -> q < 0 ->
  let db' := snd (createOrder user b db) in
  Order.products <$> Orders db' !! fresh_id (Orders db)
  = Some [ {| product := id; quantity := q |} ]
  /\ stock_of db' id = Some (Product.stock p - q)
  /\ Product.stock p < Product.stock p - q.
Proof.
  intros Hitems Hship Hwho Ht Hp Hact Hstock Hq. cbv zeta.
  assert (Hgood : Forall (fun item => ~ bad_item db item)
                    [ {| product := id; quantity := q |} ]).
  { constructor; [|constructor].
    unfold bad_item. cbn [product quantity]. rewrite Hp, Hact.
    intros [? | ?]; [done | lia]. }
  rewrite (createOrder_stores user b _ t db Hitems) by done.
  cbn [snd Orders]. rewrite lookup_insert_eq. split; [done|].
  split; [|lia].
  unfold stock_of. cbn [Products]. rewrite dec_all_lookup, Hp.
  cbn. rewrite N.eqb_refl. f_equal. lia.
Qed.

Lemma createOrder_negative_quantity_witness :
  let b := guest_order [ {| product := 1; quantity := -4 |} ] 0 in
  let db' := snd (createOrder None b (shop 5)) in
  Order.products <$> Orders db' !! fresh_id (Orders (shop 5))
  = Some [ {| product := 1; quantity := -4 |} ]
  /\ stock_of db' 1 = Some (5 - -4)
  /\ 5 < 5 - -4.
Proof.
  refine (createOrder_negative_quantity None
            (guest_order [ {| product := 1; quantity := -4 |} ] 0)
            1%N (-4) 0 (vase 5) (shop 5)
            eq_refl eq_refl (or_intror eq_refl) eq_refl eq_refl eq_refl _ _);
    cbn; lia.
Defined.
